(** * Verification of the virtual-list scroll controller (src/ts/index.ts)

    The development embeds [VerticalScrollController] and the sample data
    source [getPage] of [src/ts/index.ts] and settles the properties the
    specification states about them.

    Modelling decisions, all stated once here:

    - A TypeScript [number] is modelled by [number]: an exact rational, or
      one of [Infinity], [-Infinity], [NaN].  The special values follow the
      IEEE rules the code relies on ([x/0], [0/0], [Infinity*0], comparisons
      with [NaN] are false).  Finite arithmetic is exact: rounding is not
      modelled, and the two zeros of IEEE are identified.
    - An [async] method is a state transformer that runs to the end of its
      body; an awaited promise that never settles, a rejected fetch and a
      thrown [TypeError] stop it and keep the state reached so far.  A call
      whose promise is dropped ([this.scrollTo(...)] in a handler,
      [this.updatePages(0, 0)] in [initialize]) runs the callee to its end
      or to the point where it stops, and the caller goes on; an event is
      handled after the work started by the events before it has come to
      rest.
    - The fields [requestPage] and [insertRow], which [initialize] sets
      once, are parameters of the model.
    - The host surface (viewport, tracker element, content container) is a
      record of the values the controller reads and writes there.  A
      browser ignores the assignment of a length that is not finite
      ([NaNpx], [Infinitypx]); the record keeps it, so statements about an
      offset read back from the tracker are made for finite offsets.
    - Calls to the data source and repaints are recorded in the state so
      that statements about the number of fetches can be made. *)

From Stdlib Require Import ZArith QArith Qround Lia Lqa List Bool.
From Stdlib Require Qcanon.
Import ListNotations.

Set Implicit Arguments.

(** ** JavaScript numbers *)

Module Num.

Inductive number : Type :=
| Fin (q : Q)
| PosInf
| NegInf
| NaN.

(** Finite results are kept in lowest terms, so that two finite numbers
    built by the operations below are equal exactly when they denote the
    same rational. *)
Definition fin (q : Q) : number := Fin (Qred q).

Definition ofZ (z : Z) : number := Fin (inject_Z z).

(** The integer a number is, when it is one (used to print literals). *)
Definition toZ (a : number) : option Z :=
  match a with
  | Fin (Qmake z 1) => Some z
  | _ => None
  end.

Definition zero : number := ofZ 0.

Definition isNaN (a : number) : bool :=
  match a with NaN => true | _ => false end.

Definition isFinite (a : number) : bool :=
  match a with Fin _ => true | _ => false end.

(** Sign of a rational: [Lt] negative, [Eq] zero, [Gt] positive. *)
Definition sgn (q : Q) : comparison := Qcompare q 0.

(** [a + b] *)
Definition add (a b : number) : number :=
  match a, b with
  | NaN, _ | _, NaN => NaN
  | Fin x, Fin y => fin (x + y)
  | PosInf, NegInf | NegInf, PosInf => NaN
  | PosInf, _ | _, PosInf => PosInf
  | NegInf, _ | _, NegInf => NegInf
  end.

(** [a - b] *)
Definition sub (a b : number) : number :=
  match a, b with
  | NaN, _ | _, NaN => NaN
  | Fin x, Fin y => fin (x - y)
  | PosInf, PosInf | NegInf, NegInf => NaN
  | PosInf, _ | _, NegInf => PosInf
  | NegInf, _ | _, PosInf => NegInf
  end.

(** An infinity scaled by a finite factor of the given sign. *)
Definition scaleInf (positive : bool) (s : comparison) : number :=
  match s with
  | Eq => NaN
  | Gt => if positive then PosInf else NegInf
  | Lt => if positive then NegInf else PosInf
  end.

(** [a * b] *)
Definition mul (a b : number) : number :=
  match a, b with
  | NaN, _ | _, NaN => NaN
  | Fin x, Fin y => fin (x * y)
  | PosInf, Fin y => scaleInf true (sgn y)
  | NegInf, Fin y => scaleInf false (sgn y)
  | Fin x, PosInf => scaleInf true (sgn x)
  | Fin x, NegInf => scaleInf false (sgn x)
  | PosInf, PosInf | NegInf, NegInf => PosInf
  | PosInf, NegInf | NegInf, PosInf => NegInf
  end.

(** [a / b].  A finite non-zero value divided by zero is an infinity of
    the sign of the dividend, [0/0] is [NaN]. *)
Definition div (a b : number) : number :=
  match a, b with
  | NaN, _ | _, NaN => NaN
  | Fin x, Fin y =>
      match sgn y with
      | Eq => match sgn x with
              | Eq => NaN
              | Gt => PosInf
              | Lt => NegInf
              end
      | _ => fin (x / y)
      end
  | Fin _, PosInf | Fin _, NegInf => zero
  | PosInf, Fin y => match sgn y with Lt => NegInf | _ => PosInf end
  | NegInf, Fin y => match sgn y with Lt => PosInf | _ => NegInf end
  | _, _ => NaN
  end.

(** [a < b] *)
Definition ltb (a b : number) : bool :=
  match a, b with
  | NaN, _ | _, NaN => false
  | Fin x, Fin y => match Qcompare x y with Lt => true | _ => false end
  | NegInf, NegInf => false
  | NegInf, _ => true
  | _, PosInf => match a with PosInf => false | _ => true end
  | _, _ => false
  end.

(** [a <= b] *)
Definition leb (a b : number) : bool :=
  match a, b with
  | NaN, _ | _, NaN => false
  | Fin x, Fin y => match Qcompare x y with Gt => false | _ => true end
  | NegInf, _ => true
  | _, PosInf => true
  | _, _ => false
  end.

(** [a > b] and [a >= b] *)
Definition gtb (a b : number) : bool := ltb b a.
Definition geb (a b : number) : bool := leb b a.

(** [a == b] on numbers: numeric equality, false on [NaN]. *)
Definition eqb (a b : number) : bool :=
  match a, b with
  | Fin x, Fin y => match Qcompare x y with Eq => true | _ => false end
  | PosInf, PosInf | NegInf, NegInf => true
  | _, _ => false
  end.

(** [Math.floor] and [Math.ceil] *)
Definition floor (a : number) : number :=
  match a with
  | Fin x => ofZ (Qfloor x)
  | _ => a
  end.

Definition ceil (a : number) : number :=
  match a with
  | Fin x => ofZ (Qceiling x)
  | _ => a
  end.

(** Rounding towards zero, used by the remainder. *)
Definition Qtrunc (x : Q) : Z :=
  match sgn x with
  | Lt => Qceiling x
  | _ => Qfloor x
  end.

(** [a % b]: the remainder has the sign of the dividend. *)
Definition rem (a b : number) : number :=
  match a, b with
  | NaN, _ | _, NaN => NaN
  | Fin x, Fin y =>
      match sgn y with
      | Eq => NaN
      | _ => fin (x - y * inject_Z (Qtrunc (x / y)))
      end
  | Fin x, _ => fin x
  | _, _ => NaN
  end.

End Num.

Import Num.

Declare Scope js_scope.
Delimit Scope js_scope with js.
Bind Scope js_scope with number.
Infix "+" := add : js_scope.
Infix "-" := sub : js_scope.
Infix "*" := mul : js_scope.
Infix "/" := div : js_scope.
Infix "%%" := rem (at level 40, left associativity) : js_scope.
Infix "<?" := ltb : js_scope.
Infix "<=?" := leb : js_scope.
Infix ">?" := gtb : js_scope.
Infix ">=?" := geb : js_scope.
Infix "==?" := eqb (at level 70) : js_scope.
Number Notation number ofZ toZ : js_scope.

Open Scope js_scope.

(** ** Data model *)

(** [interface Page<T>] *)
Module Page.
Record t (T : Type) : Type := mk {
  startPosition : number;
  numTotalItems : number;
  items : list T
}.
Arguments mk {T} _ _ _.
Arguments startPosition {T} _.
Arguments numTotalItems {T} _.
Arguments items {T} _.
End Page.
Abbreviation Page := Page.t.

(** What a caller observes of a promise returned by the data source. *)
Inductive Promise (A : Type) : Type :=
| Resolves (a : A)   (* [resolve(a)] is eventually called *)
| Rejects            (* the promise is rejected *)
| Pending            (* the executor returns, the promise is never settled *)
| Spins.             (* the executor itself does not return *)
Arguments Resolves {A} a.
Arguments Rejects {A}.
Arguments Pending {A}.
Arguments Spins {A}.

(** Why an [async] method did not reach the end of its body. *)
Inductive Stop : Type :=
| TypeError        (* a property of [undefined] was read *)
| FetchRejected    (* an awaited fetch was rejected *)
| NeverSettles     (* an awaited fetch is never settled *)
| Diverges.        (* the data source did not return *)

(** [WheelEvent.deltaMode] *)
Inductive DeltaMode : Type :=
| DOM_DELTA_PIXEL
| DOM_DELTA_LINE
| DOM_DELTA_PAGE.

Record PointerEvent : Type := { pageY : number }.
Record WheelEvent : Type := { deltaMode : DeltaMode; deltaY : number }.

(** [let MIN_TRACKER_HEIGHT = 30] *)
Definition MIN_TRACKER_HEIGHT : number := 30.

(** The private fields of [VerticalScrollController]. *)
Record Controller (T : Type) : Type := mkController {
  previousPage : option (Page T);
  currentPage : option (Page T);
  nextPage : option (Page T);
  numVisibleItems : number;
  trackerY : number;
  extrapolateFactor : number;
  trackableHeight : number;
  lastMargin : number;
  overlappingElements : number;
  rowHeight : number;
  startPosition : number;
  numTotalItems : number
}.

(** The host surface: what the controller reads from and writes to the
    DOM.  [marginTop] is the number [n] of the string [`${n}px`] last
    assigned to [tracker.style.marginTop] (and read back by [parseFloat]),
    [styleHeight] the same for [tracker.style.height], [scrollTop] the
    [top] last passed to [scrollable.scrollTo], [content] the children of
    the content container and [dragListeners] tells whether the window's
    [pointerup] and [pointermove] listeners are attached. *)
Record Host (Row : Type) : Type := mkHost {
  clientHeight : number;
  scrollTop : number;
  marginTop : number;
  styleHeight : option number;
  content : list Row;
  dragListeners : bool
}.

(** The whole system: controller, host, the state of the data source, the
    (start, count) of every call made to the data source so far, oldest
    first, and the number of repaints done by [fillContent]. *)
Record Sys (T Row World : Type) : Type := mkSys {
  this : Controller T;
  host : Host Row;
  source : World;
  fetched : list (number * number);
  paints : nat
}.

Arguments mkSys {T Row World} _ _ _ _ _.
Arguments this {T Row World} _.
Arguments host {T Row World} _.
Arguments source {T Row World} _.
Arguments fetched {T Row World} _.
Arguments paints {T Row World} _.

(** The result of running an [async] method from a state. *)
Inductive Outcome (S A : Type) : Type :=
| Done (a : A) (s : S)
| Stopped (why : Stop) (s : S).
Arguments Done {S A} a s.
Arguments Stopped {S A} why s.

Definition finalState {S A} (o : Outcome S A) : S :=
  match o with Done _ s => s | Stopped _ s => s end.

Section Controller.

Variables T Row World : Type.

(** [this.requestPage], [this.insertRow] and the rendered height of a row
    element ([elem.clientHeight] after one animation frame). *)
Variable requestPage : number -> number -> World -> Promise (Page T) * World.
Variable insertRow : T -> Row.
Variable rowClientHeight : Row -> number.

Abbreviation State := (Sys T Row World).
Definition M (A : Type) : Type := State -> Outcome State A.

Definition ret {A} (a : A) : M A := fun s => Done a s.

Definition bind {A B} (m : M A) (k : A -> M B) : M B :=
  fun s => match m s with
           | Done a s' => k a s'
           | Stopped why s' => Stopped why s'
           end.

Definition throw {A} (why : Stop) : M A := fun s => Stopped why s.

Notation "x <- m ;; k" := (bind m (fun x => k))
  (at level 61, m at next level, right associativity).
Notation "m ;;; k" := (bind m (fun _ => k))
  (at level 61, right associativity).

Definition gets {A} (f : Controller T -> A) : M A := fun s => Done (f (this s)) s.
Definition getsHost {A} (f : Host Row -> A) : M A := fun s => Done (f (host s)) s.

Definition modify (f : Controller T -> Controller T) : M unit :=
  fun s => Done tt (mkSys (f (this s)) (host s) (source s) (fetched s) (paints s)).
Definition modifyHost (f : Host Row -> Host Row) : M unit :=
  fun s => Done tt (mkSys (this s) (f (host s)) (source s) (fetched s) (paints s)).

(** Field updates. *)
Definition set_previousPage (v : option (Page T)) (c : Controller T) :=
  mkController v (currentPage c) (nextPage c) (numVisibleItems c) (trackerY c)
    (extrapolateFactor c) (trackableHeight c) (lastMargin c)
    (overlappingElements c) (rowHeight c) (startPosition c) (numTotalItems c).
Definition set_currentPage (v : option (Page T)) (c : Controller T) :=
  mkController (previousPage c) v (nextPage c) (numVisibleItems c) (trackerY c)
    (extrapolateFactor c) (trackableHeight c) (lastMargin c)
    (overlappingElements c) (rowHeight c) (startPosition c) (numTotalItems c).
Definition set_nextPage (v : option (Page T)) (c : Controller T) :=
  mkController (previousPage c) (currentPage c) v (numVisibleItems c) (trackerY c)
    (extrapolateFactor c) (trackableHeight c) (lastMargin c)
    (overlappingElements c) (rowHeight c) (startPosition c) (numTotalItems c).
Definition set_numVisibleItems (v : number) (c : Controller T) :=
  mkController (previousPage c) (currentPage c) (nextPage c) v (trackerY c)
    (extrapolateFactor c) (trackableHeight c) (lastMargin c)
    (overlappingElements c) (rowHeight c) (startPosition c) (numTotalItems c).
Definition set_trackerY (v : number) (c : Controller T) :=
  mkController (previousPage c) (currentPage c) (nextPage c) (numVisibleItems c) v
    (extrapolateFactor c) (trackableHeight c) (lastMargin c)
    (overlappingElements c) (rowHeight c) (startPosition c) (numTotalItems c).
Definition set_extrapolateFactor (v : number) (c : Controller T) :=
  mkController (previousPage c) (currentPage c) (nextPage c) (numVisibleItems c)
    (trackerY c) v (trackableHeight c) (lastMargin c)
    (overlappingElements c) (rowHeight c) (startPosition c) (numTotalItems c).
Definition set_trackableHeight (v : number) (c : Controller T) :=
  mkController (previousPage c) (currentPage c) (nextPage c) (numVisibleItems c)
    (trackerY c) (extrapolateFactor c) v (lastMargin c)
    (overlappingElements c) (rowHeight c) (startPosition c) (numTotalItems c).
Definition set_lastMargin (v : number) (c : Controller T) :=
  mkController (previousPage c) (currentPage c) (nextPage c) (numVisibleItems c)
    (trackerY c) (extrapolateFactor c) (trackableHeight c) v
    (overlappingElements c) (rowHeight c) (startPosition c) (numTotalItems c).
Definition set_rowHeight (v : number) (c : Controller T) :=
  mkController (previousPage c) (currentPage c) (nextPage c) (numVisibleItems c)
    (trackerY c) (extrapolateFactor c) (trackableHeight c) (lastMargin c)
    (overlappingElements c) v (startPosition c) (numTotalItems c).
Definition set_startPosition (v : number) (c : Controller T) :=
  mkController (previousPage c) (currentPage c) (nextPage c) (numVisibleItems c)
    (trackerY c) (extrapolateFactor c) (trackableHeight c) (lastMargin c)
    (overlappingElements c) (rowHeight c) v (numTotalItems c).
Definition set_numTotalItems (v : number) (c : Controller T) :=
  mkController (previousPage c) (currentPage c) (nextPage c) (numVisibleItems c)
    (trackerY c) (extrapolateFactor c) (trackableHeight c) (lastMargin c)
    (overlappingElements c) (rowHeight c) (startPosition c) v.

Definition set_scrollTop (v : number) (h : Host Row) :=
  mkHost (clientHeight h) v (marginTop h) (styleHeight h) (content h) (dragListeners h).
Definition set_marginTop (v : number) (h : Host Row) :=
  mkHost (clientHeight h) (scrollTop h) v (styleHeight h) (content h) (dragListeners h).
Definition set_styleHeight (v : number) (h : Host Row) :=
  mkHost (clientHeight h) (scrollTop h) (marginTop h) (Some v) (content h) (dragListeners h).
Definition set_content (v : list Row) (h : Host Row) :=
  mkHost (clientHeight h) (scrollTop h) (marginTop h) (styleHeight h) v (dragListeners h).
Definition set_dragListeners (v : bool) (h : Host Row) :=
  mkHost (clientHeight h) (scrollTop h) (marginTop h) (styleHeight h) (content h) v.

(** [await this.requestPage!(start, count)]: the call is recorded, the data
    source moves to its next state, and the method goes on only when the
    promise resolves. *)
Definition recordFetch (start count : number) (w : World) (s : State) : State :=
  mkSys (this s) (host s) w (fetched s ++ [(start, count)]) (paints s).

Definition awaitRequestPage (start count : number) : M (Page T) :=
  fun s =>
    let (r, w) := requestPage start count (source s) in
    let s' := recordFetch start count w s in
    match r with
    | Resolves p => Done p s'
    | Rejects => Stopped FetchRejected s'
    | Pending => Stopped NeverSettles s'
    | Spins => Stopped Diverges s'
    end.

(** A call to an [async] method whose promise is dropped: the caller goes
    on whatever becomes of the callee, unless the callee never returns
    control. *)
Definition spawn (m : M unit) : M unit :=
  fun s => match m s with
           | Done _ s' => Done tt s'
           | Stopped Diverges s' => Stopped Diverges s'
           | Stopped _ s' => Done tt s'
           end.

(** [p!.field] on a page slot. *)
Definition deref {A} (p : option (Page T)) (f : Page T -> A) : M A :=
  match p with
  | Some pg => ret (f pg)
  | None => throw TypeError
  end.

(** The test of [requestPageIfExists]. *)
Definition pageExists (c : Controller T) (page : number) : bool :=
  (page >=? 0) && (overlappingElements c * page <=? numTotalItems c).

(** The number of items [requestPageIfExists] asks for. *)
Definition pageCount (c : Controller T) (page : number) : number :=
  let num := numVisibleItems c + overlappingElements c in
  if page >? 0 then num + overlappingElements c else num.

(** [private async requestPageIfExists(page)] *)
Definition requestPageIfExists (page : number) : M (option (Page T)) :=
  c <- gets (fun c => c) ;;
  if pageExists c page then
    let num := numVisibleItems c + overlappingElements c in
    let num := if page >? 0 then num + overlappingElements c else num in
    p <- awaitRequestPage (page * overlappingElements c) num ;;
    modify (set_numTotalItems (Page.numTotalItems p)) ;;;
    ret (Some p)
  else ret None.

(** The arithmetic of [calculateTrackerHeight] on its two heights. *)
Definition trackerHeightOf (totalHeight visibleHeight : number) : number :=
  let normalizeFactor := visibleHeight / totalHeight in
  if normalizeFactor >=? 1 then 0
  else
    let trackerHeight := normalizeFactor * visibleHeight in
    if trackerHeight <? MIN_TRACKER_HEIGHT then MIN_TRACKER_HEIGHT
    else trackerHeight.

(** [private calculateTrackerHeight(): number] *)
Definition calculateTrackerHeight : M number :=
  c <- gets (fun c => c) ;;
  total <- deref (currentPage c) Page.numTotalItems ;;
  let totalHeight := rowHeight c * total in
  visibleHeight <- getsHost (@clientHeight Row) ;;
  ret (trackerHeightOf totalHeight visibleHeight).

(** [private fillContent()] *)
Definition fillContent : M unit :=
  fun s =>
    match currentPage (this s) with
    | None => Done tt s
    | Some p =>
        Done tt (mkSys (this s) (set_content (map insertRow (Page.items p)) (host s))
                       (source s) (fetched s) (S (paints s)))
    end.

(** [this.scrollable.scrollTo({ top })] *)
Definition scrollableScrollTo (top : number) : M unit :=
  modifyHost (set_scrollTop top).

(** [private async updatePages(page, scrollY)] *)
Definition updatePages (page scrollY : number) : M unit :=
  availableHeight <- getsHost (@clientHeight Row) ;;
  p <- requestPageIfExists page ;;
  modify (set_currentPage p) ;;;
  start <- deref p Page.startPosition ;;
  modify (set_startPosition start) ;;;
  fillContent ;;;
  trackerHeight <- calculateTrackerHeight ;;
  modify (set_trackableHeight (availableHeight - trackerHeight)) ;;;
  c <- gets (fun c => c) ;;
  total <- deref (currentPage c) Page.numTotalItems ;;
  let totalHeight := rowHeight c * total in
  modify (set_extrapolateFactor
            ((totalHeight - availableHeight) / trackableHeight c)) ;;;
  modifyHost (set_styleHeight trackerHeight) ;;;
  let top := scrollY %% (overlappingElements c * rowHeight c) in
  scrollableScrollTo top ;;;
  n <- requestPageIfExists (page + 1) ;;
  modify (set_nextPage n) ;;;
  pv <- requestPageIfExists (page - 1) ;;
  modify (set_previousPage pv).

Definition isSome {A} (o : option A) : bool :=
  match o with Some _ => true | None => false end.

(** [private async scrollTo(scrollY)] *)
Definition scrollTo (scrollY : number) : M unit :=
  c <- gets (fun c => c) ;;
  let pageNumberByScroll := floor (scrollY / (overlappingElements c * rowHeight c)) in
  let pageNumberByPage := startPosition c / overlappingElements c in
  if pageNumberByPage ==? pageNumberByScroll then
    scrollableScrollTo (scrollY %% (overlappingElements c * rowHeight c))
  else if (pageNumberByPage + 1 ==? pageNumberByScroll) && isSome (nextPage c) then
    modify (set_previousPage (currentPage c)) ;;;
    modify (set_currentPage (nextPage c)) ;;;
    start <- deref (nextPage c) Page.startPosition ;;
    modify (set_startPosition start) ;;;
    n <- requestPageIfExists (pageNumberByScroll + 1) ;;
    modify (set_nextPage n) ;;;
    let top := scrollY %% (overlappingElements c * rowHeight c) in
    scrollableScrollTo top ;;;
    fillContent
  else if (pageNumberByPage - 1 ==? pageNumberByScroll) && isSome (previousPage c) then
    modify (set_nextPage (currentPage c)) ;;;
    modify (set_currentPage (previousPage c)) ;;;
    start <- deref (previousPage c) Page.startPosition ;;
    modify (set_startPosition start) ;;;
    pv <- requestPageIfExists pageNumberByScroll ;;
    modify (set_previousPage pv) ;;;
    let top := scrollY %% (overlappingElements c * rowHeight c) in
    scrollableScrollTo top ;;;
    fillContent
  else
    spawn (updatePages pageNumberByScroll scrollY).

(** [private calculateEntryHeight(item): Promise<number>]: the probe row is
    appended, measured after one animation frame, and removed. *)
Definition calculateEntryHeight (item : T) : M number :=
  let elem := insertRow item in
  modifyHost (fun h => set_content (content h ++ [elem]) h) ;;;
  modifyHost (fun h => set_content (removelast (content h)) h) ;;;
  ret (rowClientHeight elem).

(** [public async initialize(getPage, insertRow, dummyEntry)] *)
Definition initialize (dummyEntry : T) : M unit :=
  availableHeight <- getsHost (@clientHeight Row) ;;
  h <- calculateEntryHeight dummyEntry ;;
  modify (set_rowHeight h) ;;;
  modify (set_numVisibleItems (ceil (availableHeight / h))) ;;;
  spawn (updatePages 0 0).

(** [protected onTrackerDown(evt)] *)
Definition onTrackerDown (evt : PointerEvent) : M unit :=
  modify (set_trackerY (pageY evt)) ;;;
  m <- getsHost (@marginTop Row) ;;
  modify (set_lastMargin m) ;;;
  modifyHost (set_dragListeners true).

(** [protected onTrackerUp(evt)] *)
Definition onTrackerUp (evt : PointerEvent) : M unit :=
  modifyHost (set_dragListeners false) ;;;
  m <- getsHost (@marginTop Row) ;;
  modify (set_lastMargin m).

(** [protected onTrackerMove(evt)] *)
Definition onTrackerMove (evt : PointerEvent) : M unit :=
  c <- gets (fun c => c) ;;
  let newMargin := pageY evt - trackerY c + lastMargin c in
  let newMargin := if newMargin <? 0 then 0 else newMargin in
  let newMargin := if newMargin >=? trackableHeight c
                   then trackableHeight c else newMargin in
  modifyHost (set_marginTop newMargin) ;;;
  let scrollY := extrapolateFactor c * newMargin in
  spawn (scrollTo scrollY).

(** [protected onScrollWheel(evt)] *)
Definition onScrollWheel (evt : WheelEvent) : M unit :=
  c <- gets (fun c => c) ;;
  visible <- getsHost (@clientHeight Row) ;;
  let scrollY :=
    match deltaMode evt with
    | DOM_DELTA_LINE => deltaY evt * rowHeight c
    | DOM_DELTA_PAGE => deltaY evt * visible
    | DOM_DELTA_PIXEL => deltaY evt
    end in
  let deltaMargin := scrollY / extrapolateFactor c in
  let m := deltaMargin + lastMargin c in
  let m := if m <? 0 then 0 else m in
  let m := if m >=? trackableHeight c then trackableHeight c else m in
  modify (set_lastMargin m) ;;;
  modifyHost (set_marginTop m) ;;;
  let scrollY := extrapolateFactor c * m in
  spawn (scrollTo scrollY).

(** The input events of the host.  The window's [pointermove] and
    [pointerup] listeners exist only between [onTrackerDown] and
    [onTrackerUp]; outside a drag those events reach no handler. *)
Inductive Event : Type :=
| PointerDown (evt : PointerEvent)
| PointerMove (evt : PointerEvent)
| PointerUp (evt : PointerEvent)
| Wheel (evt : WheelEvent).

Definition dispatch (e : Event) : M unit :=
  match e with
  | PointerDown evt => onTrackerDown evt
  | Wheel evt => onScrollWheel evt
  | PointerMove evt =>
      l <- getsHost (@dragListeners Row) ;;
      if l then onTrackerMove evt else ret tt
  | PointerUp evt =>
      l <- getsHost (@dragListeners Row) ;;
      if l then onTrackerUp evt else ret tt
  end.

Fixpoint dispatchAll (es : list Event) : M unit :=
  match es with
  | [] => ret tt
  | e :: es' => dispatch e ;;; dispatchAll es'
  end.

(** [scrollTo] applied to each target in turn. *)
Fixpoint scrollToAll (targets : list number) : M unit :=
  match targets with
  | [] => ret tt
  | y :: ys => scrollTo y ;;; scrollToAll ys
  end.

(** The state built by the constructor and the field initialisers, for a
    viewport of the given height and a data source in state [w]. *)
Definition newController : Controller T :=
  mkController None None None 0 0 0 0 0 10 0 0 0.

Definition construct (viewportHeight : number) (w : World) : State :=
  mkSys newController
        (mkHost viewportHeight 0 0 None [] false)
        w [] 0.

(** The state [requestPageIfExists] leaves when its fetch resolves with
    [p] and the data source moves to [w]. *)
Definition fetchedPage (start count : number) (p : Page T) (w : World)
    (s : State) : State :=
  mkSys (set_numTotalItems (Page.numTotalItems p) (this s)) (host s) w
        (fetched s ++ [(start, count)]) (paints s).

(** The page index [scrollTo] derives from a target offset, and the one
    it derives from the window. *)
Definition pageNumberByScroll (c : Controller T) (scrollY : number) : number :=
  floor (scrollY / (overlappingElements c * rowHeight c)).

Definition pageNumberByPage (c : Controller T) : number :=
  startPosition c / overlappingElements c.

(** [updatePages] as three calls of [requestPageIfExists]: the state after
    the current page [p] has been stored, painted and measured ... *)
Definition afterCurrent (p : Page T) (scrollY : number) (s : State) : State :=
  let availableHeight := clientHeight (host s) in
  let c := this s in
  let trackerHeight :=
    trackerHeightOf (rowHeight c * Page.numTotalItems p) availableHeight in
  let trackable := availableHeight - trackerHeight in
  let totalHeight := rowHeight c * Page.numTotalItems p in
  mkSys
    (set_extrapolateFactor ((totalHeight - availableHeight) / trackable)
       (set_trackableHeight trackable
          (set_startPosition (Page.startPosition p)
             (set_currentPage (Some p) c))))
    (set_scrollTop (scrollY %% (overlappingElements c * rowHeight c))
       (set_styleHeight trackerHeight
          (set_content (map insertRow (Page.items p)) (host s))))
    (source s) (fetched s) (S (paints s)).

(** ... and of a slot being overwritten. *)
Definition withNext (n : option (Page T)) (s : State) : State :=
  mkSys (set_nextPage n (this s)) (host s) (source s) (fetched s) (paints s).
Definition withPrevious (n : option (Page T)) (s : State) : State :=
  mkSys (set_previousPage n (this s)) (host s) (source s) (fetched s) (paints s).
Definition withCurrent (n : option (Page T)) (s : State) : State :=
  mkSys (set_currentPage n (this s)) (host s) (source s) (fetched s) (paints s).

Definition withScrollTop (top : number) (s : State) : State :=
  mkSys (this s) (set_scrollTop top (host s)) (source s) (fetched s) (paints s).

(** The window after [scrollTo] has moved it one page forward and before
    it asks for the new next page. *)
Definition slidForward (nx : Page T) (s : State) : State :=
  mkSys (set_startPosition (Page.startPosition nx)
           (set_currentPage (Some nx)
              (set_previousPage (currentPage (this s)) (this s))))
        (host s) (source s) (fetched s) (paints s).

(** A target offset that [scrollTo] finds on the page of the window. *)
Definition withinCurrentPage (c : Controller T) (scrollY : number) : Prop :=
  (pageNumberByPage c ==? pageNumberByScroll c scrollY) = true.

(** The tracker offset [onTrackerMove] computes from the event. *)
Definition draggedMargin (c : Controller T) (evt : PointerEvent) : number :=
  let newMargin := pageY evt - trackerY c + lastMargin c in
  let newMargin := if newMargin <? 0 then 0 else newMargin in
  if newMargin >=? trackableHeight c then trackableHeight c else newMargin.

(** The tracker offset [onScrollWheel] computes from the event. *)
Definition wheeledMargin (c : Controller T) (h : Host Row) (evt : WheelEvent)
  : number :=
  let scrollY :=
    match deltaMode evt with
    | DOM_DELTA_LINE => deltaY evt * rowHeight c
    | DOM_DELTA_PAGE => deltaY evt * clientHeight h
    | DOM_DELTA_PIXEL => deltaY evt
    end in
  let m := scrollY / extrapolateFactor c + lastMargin c in
  let m := if m <? 0 then 0 else m in
  if m >=? trackableHeight c then trackableHeight c else m.

(** The tracker geometry as [updatePages] sets it from a total number of
    items. *)
Definition geometryFrom (c : Controller T) (h : Host Row) (total : number)
  : Prop :=
  trackableHeight c
  = clientHeight h - trackerHeightOf (rowHeight c * total) (clientHeight h) /\
  extrapolateFactor c
  = (rowHeight c * total - clientHeight h) / trackableHeight c.

(** The state [initialize] has reached when it calls [updatePages]. *)
Definition measured (dummyEntry : T) (s : State) : State :=
  let h := rowClientHeight (insertRow dummyEntry) in
  mkSys (set_numVisibleItems (ceil (clientHeight (host s) / h))
           (set_rowHeight h (this s)))
        (set_content (removelast (content (host s) ++ [insertRow dummyEntry]))
           (host s))
        (source s) (fetched s) (paints s).

(** What a page request, a resync or a scroll never touches: the
    configuration, the drag session, the tracker offset on the host and
    the fetches already recorded. *)
Definition keepsInputState (s s' : State) : Prop :=
  rowHeight (this s') = rowHeight (this s) /\
  numVisibleItems (this s') = numVisibleItems (this s) /\
  overlappingElements (this s') = overlappingElements (this s) /\
  lastMargin (this s') = lastMargin (this s) /\
  trackerY (this s') = trackerY (this s) /\
  marginTop (host s') = marginTop (host s) /\
  clientHeight (host s') = clientHeight (host s) /\
  dragListeners (host s') = dragListeners (host s) /\
  exists more, fetched s' = fetched s ++ more.

(** The window after [scrollTo] has moved it one page backward and before
    it asks for the new previous page. *)
Definition slidBackward (pv : Page T) (s : State) : State :=
  mkSys (set_startPosition (Page.startPosition pv)
           (set_currentPage (Some pv)
              (set_nextPage (currentPage (this s)) (this s))))
        (host s) (source s) (fetched s) (paints s).

(** The field [startPosition] is the start of the current page. *)
Definition windowSynced (c : Controller T) : Prop :=
  match currentPage c with
  | Some p => startPosition c = Page.startPosition p
  | None => True
  end.

(** The rows in the content container are those of the current page. *)
Definition painted (s : State) : Prop :=
  match currentPage (this s) with
  | Some p => content (host s) = map insertRow (Page.items p)
  | None => True
  end.

(** [lastMargin] is the offset the tracker shows. *)
Definition offsetsAgree (s : State) : Prop :=
  lastMargin (this s) = marginTop (host s).

(** From [s] to [s'] at most [k] requests were made to the data source. *)
Definition fetchesAtMost (k : nat) (s s' : State) : Prop :=
  exists more, fetched s' = fetched s ++ more /\ (length more <= k)%nat.

Definition isPointerMove (e : Event) : bool :=
  match e with PointerMove _ => true | _ => false end.

(** Every wheel event of the run assigns the tracker an offset that is a
    finite number (a browser ignores the assignment of [NaNpx] or
    [Infinitypx] to a style property). *)
Fixpoint wheelOffsetsFinite (es : list Event) (s : State) : Prop :=
  match es with
  | [] => True
  | e :: es' =>
      match e with
      | Wheel evt => isFinite (wheeledMargin (this s) (host s) evt) = true
      | _ => True
      end /\
      wheelOffsetsFinite es' (finalState (dispatch e s))
  end.

End Controller.

Arguments construct {T Row World} viewportHeight w.
Arguments newController {T}.

(** ** The sample data source *)

(** [class ListItemImpl] *)
Record ListItemImpl : Type := { num : number }.

(** The body of the [for] loop of [getPage], run for [idx] from [idx] on,
    [n] times. *)
Fixpoint getPageItems (totalNumberItems startPosition : number)
    (idx : Z) (n : nat) : list ListItemImpl :=
  match n with
  | O => []
  | S n' =>
      let rest := getPageItems totalNumberItems startPosition (idx + 1) n' in
      if ofZ idx + startPosition >=? totalNumberItems then rest
      else {| num := ofZ idx + startPosition |} :: rest
  end.

(** How often the test [idx < numberItems] succeeds for [idx = 0, 1, ...];
    [None] when it never fails. *)
Definition loopCount (numberItems : number) : option nat :=
  match numberItems with
  | Fin c => Some (Z.to_nat (Qceiling c))
  | PosInf => None
  | NegInf | NaN => Some O
  end.

(** [function getPage(startPosition, numberItems)].  The state of this
    data source is the module variable [totalNumberItems], which no code
    assigns after its initialisation to 500. *)
Definition getPage (startPosition numberItems : number) (totalNumberItems : number)
  : Promise (Page ListItemImpl) * number :=
  if startPosition >=? totalNumberItems then (Pending, totalNumberItems)
  else
    match loopCount numberItems with
    | None => (Spins, totalNumberItems)
    | Some n =>
        let items := getPageItems totalNumberItems startPosition 0 n in
        (Resolves (Page.mk startPosition totalNumberItems items), totalNumberItems)
    end.

Definition totalNumberItems : number := 500.

(** ** Definitions that follow the words of the specification *)

(** "valid only when [pageIndex >= 0] and
    [pageIndex * overlapStride <= numTotalItems]" *)
Definition validPageIndex {T} (c : Controller T) (pageIndex : number) : bool :=
  (pageIndex >=? 0) && (pageIndex * overlappingElements c <=? numTotalItems c).

(** [Math.max] on two numbers. *)
Definition maxNumber (a b : number) : number :=
  if isNaN a || isNaN b then NaN
  else if a <? b then b else a.

(** "let [proportion = viewportHeight / totalContentHeight].  If
    [proportion >= 1] the tracker is hidden ([height = 0]).  Otherwise
    [trackerHeight = max(MIN_TRACKER_HEIGHT, proportion * viewportHeight)]" *)
Definition specTrackerHeight (totalContentHeight viewportHeight : number) : number :=
  let proportion := viewportHeight / totalContentHeight in
  if proportion >=? 1 then 0
  else maxNumber MIN_TRACKER_HEIGHT (proportion * viewportHeight).

(** The scenario of the specification: the sample data source with 500
    items, rows 24 px high, a viewport of 480 px (20 rows). *)
Definition sampleInsertRow (item : ListItemImpl) : ListItemImpl := item.
Definition sampleRowHeight (elem : ListItemImpl) : number := 24.
Definition dummyEntry : ListItemImpl := {| num := 92345 |}.

Definition scenarioStart : Sys ListItemImpl ListItemImpl number :=
  construct 480 totalNumberItems.

Definition scenarioReady : Sys ListItemImpl ListItemImpl number :=
  finalState (initialize getPage sampleInsertRow sampleRowHeight dummyEntry scenarioStart).





(** Rows that render with no height, as in a container that is not
    displayed. *)
Definition zeroRowHeight (elem : ListItemImpl) : number := 0.

(** A viewport of height 0 with rows of height 0. *)
Definition hiddenStart : Sys ListItemImpl ListItemImpl number :=
  construct 0 totalNumberItems.

Definition hiddenReady : Sys ListItemImpl ListItemImpl number :=
  finalState (initialize getPage sampleInsertRow zeroRowHeight dummyEntry hiddenStart).

(** A viewport exactly [MIN_TRACKER_HEIGHT] = 30 px high over the 500
    sample items, rows 24 px high. *)
Definition narrowStart : Sys ListItemImpl ListItemImpl number :=
  construct 30 totalNumberItems.

Definition narrowReady : Sys ListItemImpl ListItemImpl number :=
  finalState (initialize getPage sampleInsertRow sampleRowHeight dummyEntry narrowStart).

(** The tracker is grabbed at [pageY = 0] and dragged down by 100 px, past
    the end of its travel. *)
Definition dragToEnd : list Event :=
  [PointerDown {| pageY := 0 |}; PointerMove {| pageY := 100 |}].

(** The tracker is grabbed at [pageY = 0] and dragged down by 50 px; the
    pointer is not released. *)
Definition dragBy50 : list Event :=
  [PointerDown {| pageY := 0 |}; PointerMove {| pageY := 50 |}].

(** A wheel event of 256 content pixels, which is 10 px of tracker travel
    in the scenario ([extrapolateFactor = 25.6]). *)
Definition wheelBy256 : Event :=
  Wheel {| deltaMode := DOM_DELTA_PIXEL; deltaY := 256 |}.

(** The scenario after a scroll to offset 240, which slides the window
    forward to page 1. *)
Definition scenarioAtPage1 : Sys ListItemImpl ListItemImpl number :=
  finalState (scrollTo getPage sampleInsertRow 240 scenarioReady).

(** The scenario after a jump to offset [48 * 240]: the window is on page
    48 and page 49 is resident as next. *)
Definition scenarioAtPage48 : Sys ListItemImpl ListItemImpl number :=
  finalState (scrollTo getPage sampleInsertRow 11520 scenarioReady).

(** A viewport of 20 px, shorter than [MIN_TRACKER_HEIGHT], over the 500
    sample items. *)
Definition shortViewportStart : Sys ListItemImpl ListItemImpl number :=
  construct 20 totalNumberItems.

Definition shortViewportReady : Sys ListItemImpl ListItemImpl number :=
  finalState (initialize getPage sampleInsertRow sampleRowHeight dummyEntry
                shortViewportStart).

(** The page held in a slot, for a slot known to be filled. *)
Definition held (o : option (Page ListItemImpl)) : Page ListItemImpl :=
  match o with
  | Some p => p
  | None => Page.mk 0 0 []
  end.

(** The scenario with the tracker grabbed at [pageY = 0]. *)
Definition scenarioGrabbed : Sys ListItemImpl ListItemImpl number :=
  finalState (dispatch getPage sampleInsertRow (PointerDown {| pageY := 0 |})
                scenarioReady).

(** A wheel event, a click on the tracker without a move, and another
    wheel event. *)
Definition wheelClickWheel : list Event :=
  [wheelBy256; PointerDown {| pageY := 5 |}; PointerUp {| pageY := 5 |};
   wheelBy256].
(** ** Facts about numbers *)

Lemma fin_ext (x y : Q) : (x == y)%Q -> fin x = fin y.
Proof. intros H; unfold fin; f_equal; now apply Qred_complete. Qed.

Lemma Qred_idem (x : Q) : Qred (Qred x) = Qred x.
Proof. apply Qred_complete, Qred_correct. Qed.

Lemma sgn_Qred (x : Q) : sgn (Qred x) = sgn x.
Proof. unfold sgn; now rewrite (Qred_correct x). Qed.

Lemma mul_comm (a b : number) : a * b = b * a.
Proof.
  destruct a as [x| | |], b as [y| | |]; simpl; try reflexivity.
  apply fin_ext; ring.
Qed.

(** Adding the stride twice is adding twice the stride. *)
Lemma add_twice (a b : number) : a + b + b = a + 2 * b.
Proof.
  destruct a as [x| | |], b as [y| | |]; cbn [add mul ofZ]; try reflexivity.
  apply fin_ext. unfold fin. rewrite 2!Qred_correct. unfold inject_Z. ring.
Qed.

Lemma eqb_leb (a b : number) : (a ==? b) = true -> (a <=? b) = true.
Proof.
  destruct a as [x| | |], b as [y| | |]; simpl; try discriminate; try reflexivity.
  destruct (x ?= y)%Q; now try discriminate.
Qed.

Lemma eqb_geb (a b : number) : (a ==? b) = true -> (a >=? b) = true.
Proof.
  unfold geb.
  destruct a as [x| | |], b as [y| | |]; simpl; try discriminate; try reflexivity.
  rewrite <- (Qcompare_antisym x y).
  destruct (x ?= y)%Q; simpl; now try discriminate.
Qed.

(** Without [NaN], [a < b] fails exactly when [a >= b]. *)
Lemma ltb_false_geb (a b : number) :
  isNaN a = false -> isNaN b = false -> (a <? b) = false -> (a >=? b) = true.
Proof.
  unfold geb.
  destruct a as [x| | |], b as [y| | |]; simpl; try discriminate; try reflexivity.
  intros _ _. rewrite <- (Qcompare_antisym x y).
  destruct (x ?= y)%Q; simpl; now try discriminate.
Qed.

Lemma geb_refl (a : number) : isNaN a = false -> (a >=? a) = true.
Proof.
  unfold geb; destruct a as [x| | |]; simpl; try discriminate; try reflexivity.
  intros _. assert (H : (x ?= x)%Q = Eq) by (apply Qeq_alt; reflexivity).
  now rewrite H.
Qed.

(** The validity test of the code is the one of the specification. *)
Lemma pageExists_validPageIndex {T} (c : Controller T) (page : number) :
  pageExists c page = validPageIndex c page.
Proof. unfold pageExists, validPageIndex. now rewrite mul_comm. Qed.

(** Comparisons of finite numbers are comparisons of rationals. *)
Lemma sgn_spec (x : Q) :
  match sgn x with
  | Eq => (x == 0)%Q
  | Lt => (x < 0)%Q
  | Gt => (0 < x)%Q
  end.
Proof.
  unfold sgn. destruct (x ?= 0)%Q eqn:E.
  - now apply Qeq_alt.
  - now apply Qlt_alt.
  - now apply Qgt_alt in E.
Qed.

Lemma sgn_pos (x : Q) : (0 < x)%Q -> sgn x = Gt.
Proof. intros H. unfold sgn. now apply Qgt_alt. Qed.

Lemma leb_Fin (x y : Q) : (Fin x <=? Fin y) = true <-> (x <= y)%Q.
Proof.
  cbn [leb]. rewrite Qle_alt. destruct (x ?= y)%Q; split; congruence.
Qed.

Lemma leb_Fin_false (x y : Q) : (Fin x <=? Fin y) = false <-> (y < x)%Q.
Proof.
  cbn [leb]. rewrite Qgt_alt. destruct (x ?= y)%Q; split; congruence.
Qed.

Lemma ltb_Fin_false (x y : Q) : (Fin x <? Fin y) = false <-> (y <= x)%Q.
Proof.
  cbn [ltb]. rewrite Qle_alt, <- (Qcompare_antisym x y).
  destruct (x ?= y)%Q; cbn; split; congruence.
Qed.

(** For a quotient that is not negative, [%] is the remainder of the
    division rounded down. *)
Lemma rem_of_nonnegative_quotient (y d : Q) :
  (0 < d)%Q -> (0 <= Qfloor (y / d))%Z ->
  Fin y %% Fin d = fin (y - d * inject_Z (Qfloor (y / d))).
Proof.
  intros Hd Hf. cbn [rem]. rewrite (sgn_pos Hd). unfold Qtrunc.
  pose proof (sgn_spec (y / d)) as S.
  destruct (sgn (y / d)); try reflexivity.
  exfalso. pose proof (Qfloor_le (y / d)) as L.
  rewrite Zle_Qle in Hf. change (inject_Z 0) with 0%Q in Hf. lra.
Qed.

(** ** The paging engine *)

Section PagingEngine.

Variables T Row World : Type.
Variable requestPage : number -> number -> World -> Promise (Page T) * World.
Variable insertRow : T -> Row.

Local Abbreviation State := (Sys T Row World).

(** What [requestPageIfExists] does, case by case. *)
Lemma requestPageIfExists_absent (s : State) (page : number) :
  pageExists (this s) page = false ->
  requestPageIfExists requestPage page s = Done None s.
Proof.
  intros H. unfold requestPageIfExists, bind, gets. now rewrite H.
Qed.

Lemma requestPageIfExists_present (s : State) (page : number) :
  pageExists (this s) page = true ->
  requestPageIfExists requestPage page s =
  let start := page * overlappingElements (this s) in
  let count := pageCount (this s) page in
  match requestPage start count (source s) with
  | (Resolves p, w) => Done (Some p) (fetchedPage start count p w s)
  | (Rejects, w) => Stopped FetchRejected (recordFetch start count w s)
  | (Pending, w) => Stopped NeverSettles (recordFetch start count w s)
  | (Spins, w) => Stopped Diverges (recordFetch start count w s)
  end.
Proof.
  intros H. unfold requestPageIfExists, bind, gets. rewrite H.
  unfold awaitRequestPage, pageCount. cbv zeta.
  destruct (requestPage _ _ (source s)) as [[p| | |] w]; reflexivity.
Qed.

(** A fetch is issued exactly when the page exists, and then exactly one. *)
Lemma requestPageIfExists_fetched (s : State) (page : number) :
  fetched (finalState (requestPageIfExists requestPage page s)) =
  fetched s ++
  (if pageExists (this s) page
   then [(page * overlappingElements (this s), pageCount (this s) page)]
   else []).
Proof.
  destruct (pageExists (this s) page) eqn:E.
  - rewrite (requestPageIfExists_present _ _ E). cbv zeta.
    destruct (requestPage _ _ (source s)) as [[p| | |] w]; reflexivity.
  - rewrite (requestPageIfExists_absent _ _ E). simpl. now rewrite app_nil_r.
Qed.

(** A valid page index is zero or positive. *)
Lemma geb0_gtb_eqb (a : number) :
  (a >=? 0) = true -> (a >? 0) = negb (a ==? 0).
Proof.
  unfold geb, gtb.
  destruct a as [x| | |]; simpl; try discriminate; try reflexivity.
  rewrite <- (Qcompare_antisym x 0%Q).
  destruct (x ?= 0)%Q; simpl; now try discriminate.
Qed.

(** "[count = numVisibleItems + overlapStride] ..., except for any
    [pageIndex > 0], where [count] gains one additional [overlapStride]",
    written as the claim has it. *)
Lemma pageCount_spec (c : Controller T) (pageIndex : number) :
  (pageIndex >=? 0) = true ->
  pageCount c pageIndex =
  if pageIndex ==? 0 then numVisibleItems c + overlappingElements c
  else numVisibleItems c + 2 * overlappingElements c.
Proof.
  intros H. unfold pageCount. rewrite (geb0_gtb_eqb _ H).
  destruct (pageIndex ==? 0); simpl; [reflexivity | apply add_twice].
Qed.

Lemma requestPageIfExists_requests (s : State) (pageIndex : number) :
  fetched (finalState (requestPageIfExists requestPage pageIndex s)) =
  fetched s ++
  (if validPageIndex (this s) pageIndex
   then [(pageIndex * overlappingElements (this s),
          if pageIndex ==? 0
          then numVisibleItems (this s) + overlappingElements (this s)
          else numVisibleItems (this s) + 2 * overlappingElements (this s))]
   else []).
Proof.
  rewrite requestPageIfExists_fetched, pageExists_validPageIndex.
  destruct (validPageIndex (this s) pageIndex) eqn:E; [|reflexivity].
  rewrite pageCount_spec; [reflexivity|].
  unfold validPageIndex in E. now apply andb_true_iff in E.
Qed.

(** A page request leaves the host surface alone. *)
Lemma requestPageIfExists_host (s : State) (page : number) :
  host (finalState (requestPageIfExists requestPage page s)) = host s.
Proof.
  destruct (pageExists (this s) page) eqn:E.
  - rewrite (requestPageIfExists_present _ _ E). cbv zeta.
    destruct (requestPage _ _ (source s)) as [[p| | |] w]; reflexivity.
  - now rewrite (requestPageIfExists_absent _ _ E).
Qed.

(** [updatePages] in terms of its three page requests. *)
Lemma updatePages_unfold (page scrollY : number) (s : State) :
  updatePages requestPage insertRow page scrollY s =
  match requestPageIfExists requestPage page s with
  | Stopped why s1 => Stopped why s1
  | Done None s1 => Stopped TypeError (withCurrent None s1)
  | Done (Some p) s1 =>
      let s2 := afterCurrent insertRow p scrollY s1 in
      match requestPageIfExists requestPage (page + 1) s2 with
      | Stopped why s3 => Stopped why s3
      | Done n s3 =>
          match requestPageIfExists requestPage (page - 1) (withNext n s3) with
          | Stopped why s4 => Stopped why s4
          | Done pv s4 => Done tt (withPrevious pv s4)
          end
      end
  end.
Proof.
  unfold updatePages, bind, getsHost at 1.
  pose proof (requestPageIfExists_host s page) as Hhost.
  destruct (requestPageIfExists requestPage page s) as [[p|] s1|why s1];
    try reflexivity.
  simpl in Hhost. rewrite <- Hhost.
  cbn -[requestPageIfExists trackerHeightOf add sub mul div rem].
  lazymatch goal with
  | |- match requestPageIfExists _ _ ?a with _ => _ end = _ =>
      change a with (afterCurrent insertRow p scrollY s1)
  end.
  destruct (requestPageIfExists requestPage (page + 1) _) as [n s3|why s3];
    [|reflexivity].
  change (mkSys (set_nextPage n (this s3)) (host s3) (source s3) (fetched s3)
            (paints s3)) with (withNext n s3).
  destruct (requestPageIfExists requestPage (page - 1) _) as [pv s4|why s4];
    reflexivity.
Qed.

(** [requestPageIfExists] never throws a [TypeError]. *)
Lemma requestPageIfExists_no_TypeError (s s' : State) (page : number) :
  requestPageIfExists requestPage page s <> Stopped TypeError s'.
Proof.
  destruct (pageExists (this s) page) eqn:E.
  - rewrite (requestPageIfExists_present _ _ E). cbv zeta.
    destruct (requestPage _ _ (source s)) as [[p| | |] w]; discriminate.
  - rewrite (requestPageIfExists_absent _ _ E). discriminate.
Qed.

(** C9.  The full resync reads [startPosition] of the page it has just
    requested without testing it.  When the target page index is not valid
    the request returns absent and [updatePages] stops with a [TypeError],
    having cleared the current slot and issued no fetch; when the index is
    valid it never stops with a [TypeError]. *)
Theorem updatePages_dereferences_current (s : State) (pageIndex scrollY : number) :
  if validPageIndex (this s) pageIndex
  then forall s', updatePages requestPage insertRow pageIndex scrollY s
                  <> Stopped TypeError s'
  else requestPageIfExists requestPage pageIndex s = Done None s /\
       updatePages requestPage insertRow pageIndex scrollY s
       = Stopped TypeError (withCurrent None s).
Proof.
  rewrite <- pageExists_validPageIndex.
  destruct (pageExists (this s) pageIndex) eqn:E.
  - intros s'. rewrite updatePages_unfold.
    destruct (requestPageIfExists requestPage pageIndex s) as [[p|] s1|why s1] eqn:R.
    + cbv zeta.
      destruct (requestPageIfExists requestPage (pageIndex + 1) _)
        as [n s3|why s3] eqn:R1.
      * destruct (requestPageIfExists requestPage (pageIndex - 1) _)
          as [pv s4|why s4] eqn:R2; [discriminate|].
        intros H; inversion H; subst.
        exact (requestPageIfExists_no_TypeError _ _ R2).
      * intros H; inversion H; subst.
        exact (requestPageIfExists_no_TypeError _ _ R1).
    + rewrite (requestPageIfExists_present _ _ E) in R. cbv zeta in R.
      destruct (requestPage _ _ (source s)) as [[p| | |] w]; discriminate.
    + intros H; inversion H; subst.
      exact (requestPageIfExists_no_TypeError _ _ R).
  - split; [now apply requestPageIfExists_absent|].
    rewrite updatePages_unfold. now rewrite (requestPageIfExists_absent _ _ E).
Qed.

Lemma last_cons_default {A} (l : list A) (a d : A) :
  last (a :: l) d = last l a.
Proof.
  revert a d. induction l as [|b l IH]; intros a d; [reflexivity|].
  change (last (a :: b :: l) d) with (last (b :: l) d).
  now rewrite !IH.
Qed.

(** Case 1 of [scrollTo]: the target is on the current page. *)
Lemma scrollTo_within (s : State) (scrollY : number) :
  withinCurrentPage (this s) scrollY ->
  scrollTo requestPage insertRow scrollY s =
  Done tt (withScrollTop
             (scrollY %% (overlappingElements (this s) * rowHeight (this s))) s).
Proof.
  unfold withinCurrentPage, pageNumberByPage, pageNumberByScroll.
  intros H. unfold scrollTo, bind, gets. cbv zeta. now rewrite H.
Qed.

(** On the current page of a window that starts at a position that is not
    negative, the scroll position [scrollY % (overlapStride * rowHeight)]
    is the mathematical [scrollY mod (overlapStride * rowHeight)]. *)
Lemma within_page_offset_is_mod (c : Controller T) (sp o r y : Q) :
  startPosition c = Fin sp -> overlappingElements c = Fin o ->
  rowHeight c = Fin r ->
  (0 <= sp)%Q -> (0 < o)%Q -> (0 < r)%Q ->
  withinCurrentPage c (Fin y) ->
  exists d : Q,
    overlappingElements c * rowHeight c = Fin d /\ (0 < d)%Q /\
    Fin y %% Fin d = fin (y - d * inject_Z (Qfloor (y / d))) /\
    (0 <= y - d * inject_Z (Qfloor (y / d)) < d)%Q.
Proof.
  intros Hs Ho Hr Psp Po Pr.
  unfold withinCurrentPage, pageNumberByPage, pageNumberByScroll.
  rewrite Hs, Ho, Hr.
  change (Fin o * Fin r) with (Fin (Qred (o * r))).
  set (d := Qred (o * r)).
  assert (Ed : (d == o * r)%Q) by apply Qred_correct.
  assert (Pd : (0 < d)%Q) by (rewrite Ed; nra).
  cbn [div]. rewrite (sgn_pos Po), (sgn_pos Pd). cbn [floor fin ofZ eqb].
  intros W. exists d. split; [reflexivity|]. split; [exact Pd|].
  destruct (Qred (sp / o) ?= inject_Z (Qfloor (Qred (y / d))))%Q eqn:E;
    try discriminate.
  apply Qeq_alt in E. rewrite (Qred_correct (sp / o)) in E.
  assert (Efl : Qfloor (Qred (y / d)) = Qfloor (y / d))
    by (now rewrite Qred_correct).
  rewrite Efl in E.
  assert (Pq : (0 <= sp / o)%Q) by (apply Qle_shift_div_l; lra).
  assert (Pk : (0 <= Qfloor (y / d))%Z).
  { rewrite Zle_Qle. change (inject_Z 0) with 0%Q. lra. }
  split; [now apply rem_of_nonnegative_quotient|].
  pose proof (Qfloor_le (y / d)) as L1.
  pose proof (Qlt_floor (y / d)) as L2.
  rewrite inject_Z_plus in L2. change (inject_Z 1) with 1%Q in L2.
  assert (Ey : (y == y / d * d)%Q) by (field; lra).
  set (q := (y / d)%Q) in *. set (k := inject_Z (Qfloor q)) in *.
  split; nra.
Qed.

(** C4.  Calls of [scrollTo] whose targets are on the current page leave
    the controller (so its three page slots), the data source, the list of
    fetches and the painted rows as they were, however many such calls are
    made; each only sets the scroll position of the viewport, to the
    target offset modulo [overlapStride * rowHeight]. *)
Theorem scrollTo_within_page_frame (s : State) (targets : list number) :
  Forall (withinCurrentPage (this s)) targets ->
  exists s',
    scrollToAll requestPage insertRow targets s = Done tt s' /\
    this s' = this s /\
    previousPage (this s') = previousPage (this s) /\
    currentPage (this s') = currentPage (this s) /\
    nextPage (this s') = nextPage (this s) /\
    fetched s' = fetched s /\
    source s' = source s /\
    paints s' = paints s /\
    host s' =
    set_scrollTop
      (last (map (fun y => y %% (overlappingElements (this s) * rowHeight (this s)))
                 targets)
            (scrollTop (host s)))
      (host s).
Proof.
  revert s. induction targets as [|y ys IH]; intros s Hall.
  - exists s. simpl. repeat split; try reflexivity.
    now destruct (host s).
  - inversion Hall as [|? ? Hy Hys]; subst.
    set (d := overlappingElements (this s) * rowHeight (this s)).
    destruct (IH (withScrollTop (y %% d) s) Hys)
      as (s' & Hrun & Hthis & _ & _ & _ & Hf & Hw & Hp & Hh).
    exists s'. simpl scrollToAll. unfold bind.
    rewrite (scrollTo_within _ Hy). fold d. rewrite Hrun.
    simpl in Hthis, Hf, Hw, Hp, Hh.
    rewrite Hthis, Hf, Hw, Hp, Hh. repeat split; try reflexivity.
    fold d. change (map (fun y0 => y0 %% d) (y :: ys))
      with (y %% d :: map (fun y0 => y0 %% d) ys).
    now rewrite last_cons_default.
Qed.

(** For a finite page index, a target one page further is not a target on
    the current page, so the second case of [scrollTo] is the one taken. *)
Lemma succ_eqb_not_eqb (a b : number) :
  isFinite a = true -> (a + 1 ==? b) = true -> (a ==? b) = false.
Proof.
  destruct a as [x| | |], b as [y| | |]; cbn [add eqb isFinite fin];
    try discriminate; try reflexivity.
  intros _.
  destruct (Qred (x + 1) ?= y)%Q eqn:E; try discriminate. intros _.
  apply Qeq_alt in E. rewrite Qred_correct in E.
  destruct (x ?= y)%Q eqn:E'; try reflexivity.
  apply Qeq_alt in E'. rewrite E' in E. exfalso.
  assert (H : (y + 1 - y == 0)%Q) by (rewrite E; ring).
  ring_simplify in H. discriminate H.
Qed.

(** Case 2 of [scrollTo], up to the request for the new next page. *)
Lemma scrollTo_forward (s : State) (scrollY : number) (nx : Page T) :
  (pageNumberByPage (this s) ==? pageNumberByScroll (this s) scrollY) = false ->
  (pageNumberByPage (this s) + 1 ==? pageNumberByScroll (this s) scrollY) = true ->
  nextPage (this s) = Some nx ->
  scrollTo requestPage insertRow scrollY s =
  match requestPageIfExists requestPage
          (pageNumberByScroll (this s) scrollY + 1) (slidForward nx s) with
  | Stopped why s1 => Stopped why s1
  | Done n s1 =>
      fillContent insertRow
        (withScrollTop
           (scrollY %% (overlappingElements (this s) * rowHeight (this s)))
           (withNext n s1))
  end.
Proof.
  unfold pageNumberByPage, pageNumberByScroll. intros H1 H2 H3.
  unfold scrollTo, bind, gets. cbv zeta. rewrite H1, H2, H3.
  cbn -[requestPageIfExists fillContent add sub mul div rem floor].
  change (mkSys _ (host s) (source s) (fetched s) (paints s))
    with (slidForward nx s).
  destruct (requestPageIfExists requestPage _ (slidForward nx s)) as [n s1|why s1];
    reflexivity.
Qed.


(** *** Frame properties *)

Lemma keeps_refl (s : State) : keepsInputState s s.
Proof.
  unfold keepsInputState. repeat (split; [reflexivity|]).
  exists []. now rewrite app_nil_r.
Qed.

Lemma keeps_trans (s1 s2 s3 : State) :
  keepsInputState s1 s2 -> keepsInputState s2 s3 -> keepsInputState s1 s3.
Proof.
  unfold keepsInputState.
  intros (A1 & A2 & A3 & A4 & A5 & A6 & A7 & A8 & m1 & A9)
         (B1 & B2 & B3 & B4 & B5 & B6 & B7 & B8 & m2 & B9).
  repeat (split; [congruence|]).
  exists (m1 ++ m2). rewrite B9, A9. now rewrite app_assoc.
Qed.

(** A state that differs only in fields outside the frame. *)
Lemma keeps_fields (s s' : State) :
  rowHeight (this s') = rowHeight (this s) ->
  numVisibleItems (this s') = numVisibleItems (this s) ->
  overlappingElements (this s') = overlappingElements (this s) ->
  lastMargin (this s') = lastMargin (this s) ->
  trackerY (this s') = trackerY (this s) ->
  marginTop (host s') = marginTop (host s) ->
  clientHeight (host s') = clientHeight (host s) ->
  dragListeners (host s') = dragListeners (host s) ->
  fetched s' = fetched s ->
  keepsInputState s s'.
Proof.
  intros. unfold keepsInputState. repeat (split; [assumption|]).
  exists []. now rewrite app_nil_r.
Qed.

Ltac frame_fields := apply keeps_fields; reflexivity.

Lemma requestPageIfExists_keeps (s : State) (page : number) :
  keepsInputState s (finalState (requestPageIfExists requestPage page s)).
Proof.
  destruct (pageExists (this s) page) eqn:E.
  - rewrite (requestPageIfExists_present _ _ E). cbv zeta.
    destruct (requestPage _ _ (source s)) as [[p| | |] w];
      unfold keepsInputState; simpl; repeat (split; [reflexivity|]);
      eexists; reflexivity.
  - rewrite (requestPageIfExists_absent _ _ E). apply keeps_refl.
Qed.

(** After its first page request [updatePages] stays within the frame. *)
Lemma updatePages_keeps_after_request (s : State) (page scrollY : number) :
  keepsInputState (finalState (requestPageIfExists requestPage page s))
                  (finalState (updatePages requestPage insertRow page scrollY s)).
Proof.
  rewrite updatePages_unfold.
  destruct (requestPageIfExists requestPage page s) as [[p|] s1|why s1];
    [|simpl; frame_fields|apply keeps_refl].
  cbv zeta. simpl finalState at 1.
  apply keeps_trans with (afterCurrent insertRow p scrollY s1); [frame_fields|].
  pose proof (requestPageIfExists_keeps (afterCurrent insertRow p scrollY s1)
                (page + 1)) as K1.
  destruct (requestPageIfExists requestPage (page + 1) _) as [n s3|why s3];
    [|exact K1].
  simpl in K1. apply (keeps_trans K1).
  apply keeps_trans with (withNext n s3); [frame_fields|].
  pose proof (requestPageIfExists_keeps (withNext n s3) (page - 1)) as K2.
  destruct (requestPageIfExists requestPage (page - 1) _) as [pv s4|why s4];
    [|exact K2].
  simpl in K2. apply (keeps_trans K2). simpl. frame_fields.
Qed.

Lemma updatePages_keeps (s : State) (page scrollY : number) :
  keepsInputState s (finalState (updatePages requestPage insertRow page scrollY s)).
Proof.
  eapply keeps_trans;
    [apply requestPageIfExists_keeps | apply updatePages_keeps_after_request].
Qed.

(** The first request of a resync to a page that exists. *)
Lemma updatePages_first_request (s : State) (page scrollY : number) :
  pageExists (this s) page = true ->
  exists more,
    fetched (finalState (updatePages requestPage insertRow page scrollY s)) =
    fetched s ++
    (page * overlappingElements (this s), pageCount (this s) page) :: more.
Proof.
  intros E.
  destruct (updatePages_keeps_after_request s page scrollY)
    as (_ & _ & _ & _ & _ & _ & _ & _ & more & Hf).
  exists more. rewrite Hf, requestPageIfExists_fetched, E.
  now rewrite <- app_assoc.
Qed.

Lemma finalState_spawn (m : M T Row World unit) (s : State) :
  finalState (spawn m s) = finalState (m s).
Proof. unfold spawn. destruct (m s) as [[] s'|[] s']; reflexivity. Qed.

Lemma scrollTo_keeps (s : State) (scrollY : number) :
  keepsInputState s (finalState (scrollTo requestPage insertRow scrollY s)).
Proof.
  unfold scrollTo, bind, gets. cbv zeta.
  set (target := floor (scrollY / (overlappingElements (this s) * rowHeight (this s)))).
  set (top := scrollY %% (overlappingElements (this s) * rowHeight (this s))).
  destruct (startPosition (this s) / overlappingElements (this s) ==? target).
  { simpl. frame_fields. }
  destruct ((startPosition (this s) / overlappingElements (this s) + 1 ==? target)
            && isSome (nextPage (this s))) eqn:C2.
  { apply andb_true_iff in C2. destruct C2 as [_ C2].
    destruct (nextPage (this s)) as [nx|] eqn:N; [|discriminate].
    cbn -[requestPageIfExists add sub mul div rem floor].
    match goal with
    | |- context [requestPageIfExists requestPage ?pg ?st] =>
        pose proof (requestPageIfExists_keeps st pg) as K;
        destruct (requestPageIfExists requestPage pg st) as [n s1|why s1]
    end.
    - simpl in K. eapply keeps_trans; [frame_fields|].
      apply (keeps_trans K). unfold fillContent. simpl.
      destruct (currentPage (this s1)); simpl; frame_fields.
    - simpl in K |- *. eapply keeps_trans; [|exact K]. frame_fields. }
  destruct ((startPosition (this s) / overlappingElements (this s) - 1 ==? target)
            && isSome (previousPage (this s))) eqn:C3.
  { apply andb_true_iff in C3. destruct C3 as [_ C3].
    destruct (previousPage (this s)) as [pv|] eqn:N; [|discriminate].
    cbn -[requestPageIfExists add sub mul div rem floor].
    match goal with
    | |- context [requestPageIfExists requestPage ?pg ?st] =>
        pose proof (requestPageIfExists_keeps st pg) as K;
        destruct (requestPageIfExists requestPage pg st) as [n s1|why s1]
    end.
    - simpl in K. eapply keeps_trans; [frame_fields|].
      apply (keeps_trans K). unfold fillContent. simpl.
      destruct (currentPage (this s1)); simpl; frame_fields.
    - simpl in K |- *. eapply keeps_trans; [|exact K]. frame_fields. }
  rewrite finalState_spawn. apply updatePages_keeps.
Qed.

End PagingEngine.

(** ** The paging engine on the sample data source *)

(** C2.  A valid page index makes [requestPageIfExists] issue exactly one
    request, for the items starting at [pageIndex * overlapStride]; their
    number is [numVisibleItems + overlapStride] for page 0 and
    [numVisibleItems + 2 * overlapStride] for a later page (an index that
    is not valid issues none).  In the scenario ([overlapStride = 10],
    [numVisibleItems = 20], 500 items) initialization at offset 0 fetches
    the current page with count 30 at position 0, then the next page with
    count 40 at position 10, and the previous page is absent. *)
Theorem requestPageIfExists_counts :
  (forall (T Row World : Type)
          (requestPage : number -> number -> World -> Promise (Page T) * World)
          (s : Sys T Row World) (pageIndex : number),
     fetched (finalState (requestPageIfExists requestPage pageIndex s)) =
     fetched s ++
     (if validPageIndex (this s) pageIndex
      then [(pageIndex * overlappingElements (this s),
             if pageIndex ==? 0
             then numVisibleItems (this s) + overlappingElements (this s)
             else numVisibleItems (this s) + 2 * overlappingElements (this s))]
      else [])) /\
  (initialize getPage sampleInsertRow sampleRowHeight dummyEntry scenarioStart
   = Done tt scenarioReady /\
   overlappingElements (this scenarioReady) = 10 /\
   numVisibleItems (this scenarioReady) = 20 /\
   fetched scenarioReady = [(0, 30); (10, 40)] /\
   option_map Page.startPosition (currentPage (this scenarioReady)) = Some 0 /\
   option_map (fun p => length (Page.items p)) (currentPage (this scenarioReady))
   = Some 30%nat /\
   option_map Page.startPosition (nextPage (this scenarioReady)) = Some 10 /\
   option_map (fun p => length (Page.items p)) (nextPage (this scenarioReady))
   = Some 40%nat /\
   previousPage (this scenarioReady) = None).
Proof.
  split.
  - intros. apply requestPageIfExists_requests.
  - repeat (match goal with |- _ /\ _ => split end);
      vm_compute; reflexivity.
Qed.

(** The sample data source never settles a request that starts at or past
    the end of the list. *)
Lemma getPage_past_the_end (startPosition numberItems total : number) :
  (startPosition >=? total) = true ->
  getPage startPosition numberItems total = (Pending, total).
Proof. intros H. unfold getPage. now rewrite H. Qed.

(** C10.  On the sample data source, with the cached total equal to the
    source's total: a page index on the boundary
    [pageIndex * overlapStride == numTotalItems] is valid, so a fetch is
    issued at that position, [getPage] leaves its promise pending, and
    [requestPageIfExists] never completes. *)
Theorem boundary_fetch_never_settles (Row : Type)
    (s : Sys ListItemImpl Row number) (pageIndex : number) :
  source s = numTotalItems (this s) ->
  (pageIndex >=? 0) = true ->
  (pageIndex * overlappingElements (this s) ==? numTotalItems (this s)) = true ->
  let start := pageIndex * overlappingElements (this s) in
  let count := pageCount (this s) pageIndex in
  validPageIndex (this s) pageIndex = true /\
  getPage start count (source s) = (Pending, source s) /\
  requestPageIfExists getPage pageIndex s
  = Stopped NeverSettles (recordFetch start count (source s) s) /\
  fetched (finalState (requestPageIfExists getPage pageIndex s))
  = fetched s ++ [(start, count)].
Proof.
  intros Hw Hge Heq start count.
  assert (V : validPageIndex (this s) pageIndex = true).
  { unfold validPageIndex. rewrite Hge. simpl. now apply eqb_leb. }
  assert (G : getPage start count (source s) = (Pending, source s)).
  { apply getPage_past_the_end. rewrite Hw. now apply eqb_geb. }
  assert (R : requestPageIfExists getPage pageIndex s
              = Stopped NeverSettles (recordFetch start count (source s) s)).
  { rewrite requestPageIfExists_present
      by (now rewrite pageExists_validPageIndex).
    cbv zeta. fold start count. now rewrite G. }
  split; [exact V|]. split; [exact G|]. split; [exact R|].
  now rewrite R.
Qed.

(** In the scenario the boundary is page 50. *)
Lemma boundary_fetch_never_settles_witness :
  (50 * overlappingElements (this scenarioReady)
   ==? numTotalItems (this scenarioReady)) = true /\
  requestPageIfExists getPage 50 scenarioReady
  = Stopped NeverSettles (recordFetch 500 40 500 scenarioReady).
Proof.
  split; [vm_compute; reflexivity|].
  refine (proj1 (proj2 (proj2
    (@boundary_fetch_never_settles ListItemImpl scenarioReady 50 _ _ _)))).
  - vm_compute; reflexivity.
  - vm_compute; reflexivity.
  - vm_compute; reflexivity.
Defined.

(** Before the end of the list the sample data source answers every
    request for a number of items that is not infinite, with a page that
    starts where it was asked to. *)
Lemma getPage_before_the_end (startPosition numberItems total : number) :
  (startPosition >=? total) = false ->
  numberItems <> PosInf ->
  exists items,
    getPage startPosition numberItems total
    = (Resolves (Page.mk startPosition total items), total).
Proof.
  intros H N. unfold getPage. rewrite H.
  destruct numberItems as [c| | |]; cbn [loopCount];
    try (eexists; reflexivity).
  now contradiction N.
Qed.

(** C1 (amended).  For every page index that is valid ([pageIndex >= 0]
    and [pageIndex * overlapStride <= numTotalItems], the cached total)
    [requestPageIfExists] asks the data source for the items that start at
    [pageIndex * overlapStride] and, when that request resolves, returns
    the page it resolved with; when the request is rejected or never
    settled it returns nothing.  For every other page index it returns
    absent, without an error, a request or a change of state.  On the
    sample data source a valid request that starts before the end of the
    list (for a number of items that is not infinite) returns a page whose
    [startPosition] is [pageIndex * overlapStride]. *)
Theorem requestPageIfExists_page_or_absent :
  (forall (T Row World : Type)
          (requestPage : number -> number -> World -> Promise (Page T) * World)
          (s : Sys T Row World) (pageIndex : number),
     if validPageIndex (this s) pageIndex
     then
       let start := pageIndex * overlappingElements (this s) in
       let count := pageCount (this s) pageIndex in
       match requestPage start count (source s) with
       | (Resolves p, w) =>
           requestPageIfExists requestPage pageIndex s
           = Done (Some p) (fetchedPage start count p w s)
       | (Rejects, w) =>
           requestPageIfExists requestPage pageIndex s
           = Stopped FetchRejected (recordFetch start count w s)
       | (Pending, w) =>
           requestPageIfExists requestPage pageIndex s
           = Stopped NeverSettles (recordFetch start count w s)
       | (Spins, w) =>
           requestPageIfExists requestPage pageIndex s
           = Stopped Diverges (recordFetch start count w s)
       end
     else requestPageIfExists requestPage pageIndex s = Done None s) /\
  (forall (Row : Type) (s : Sys ListItemImpl Row number) (pageIndex : number),
     validPageIndex (this s) pageIndex = true ->
     (pageIndex * overlappingElements (this s) >=? source s) = false ->
     pageCount (this s) pageIndex <> PosInf ->
     exists p s',
       requestPageIfExists getPage pageIndex s = Done (Some p) s' /\
       Page.startPosition p = pageIndex * overlappingElements (this s) /\
       Page.numTotalItems p = source s).
Proof.
  split.
  - intros T Row World requestPage s pageIndex.
    rewrite <- pageExists_validPageIndex.
    destruct (pageExists (this s) pageIndex) eqn:E.
    + rewrite (requestPageIfExists_present requestPage _ _ E). cbv zeta.
      destruct (requestPage _ _ (source s)) as [[p| | |] w]; reflexivity.
    + now apply requestPageIfExists_absent.
  - intros Row s pageIndex V B N.
    rewrite <- pageExists_validPageIndex in V.
    destruct (@getPage_before_the_end _ _ _ B N) as (items & G).
    rewrite (requestPageIfExists_present getPage _ _ V). cbv zeta. rewrite G.
    eexists. eexists. split; [reflexivity|]. split; reflexivity.
Qed.

(** In the scenario page 1 is valid, starts before the end of the list,
    and the page returned starts at item 10. *)
Lemma requestPageIfExists_page_or_absent_witness :
  validPageIndex (this scenarioReady) 1 = true /\
  exists p s',
    requestPageIfExists getPage 1 scenarioReady = Done (Some p) s' /\
    Page.startPosition p = 10.
Proof.
  assert (V : validPageIndex (this scenarioReady) 1 = true)
    by (vm_compute; reflexivity).
  assert (B : (1 * overlappingElements (this scenarioReady)
               >=? source scenarioReady) = false)
    by (vm_compute; reflexivity).
  assert (N : pageCount (this scenarioReady) 1 <> PosInf)
    by (vm_compute; discriminate).
  split; [exact V|].
  destruct (proj2 requestPageIfExists_page_or_absent _ scenarioReady 1 V B N)
    as (p & s' & R & Hs & _).
  exists p, s'. split; [exact R|].
  rewrite Hs. vm_compute. reflexivity.
Defined.

(** C1 as stated fails on the sample data source at the boundary: in the
    scenario page 50 is valid ([50 * 10 <= 500]), the request is made at
    position 500, the source never settles it and no page is returned. *)
Lemma requestPageIfExists_at_the_boundary_returns_no_page :
  (50 >=? 0) = true /\
  (50 * overlappingElements (this scenarioReady)
   <=? numTotalItems (this scenarioReady)) = true /\
  validPageIndex (this scenarioReady) 50 = true /\
  requestPageIfExists getPage 50 scenarioReady
  = Stopped NeverSettles (recordFetch 500 40 500 scenarioReady) /\
  forall p s', requestPageIfExists getPage 50 scenarioReady <> Done (Some p) s'.
Proof.
  assert (R : requestPageIfExists getPage 50 scenarioReady
              = Stopped NeverSettles (recordFetch 500 40 500 scenarioReady))
    by (vm_compute; reflexivity).
  split; [vm_compute; reflexivity|].
  split; [vm_compute; reflexivity|].
  split; [vm_compute; reflexivity|].
  split; [exact R|].
  intros p s' H. rewrite R in H. discriminate H.
Qed.

(** In the scenario the offsets 100, 200 and 239 are on page 0. *)
Lemma scrollTo_within_page_frame_witness :
  Forall (withinCurrentPage (this scenarioReady)) [100; 200; 239] /\
  exists s',
    scrollToAll getPage sampleInsertRow [100; 200; 239] scenarioReady = Done tt s' /\
    fetched s' = fetched scenarioReady /\
    scrollTop (host s') = 239.
Proof.
  assert (H : Forall (withinCurrentPage (this scenarioReady)) [100; 200; 239])
    by (repeat constructor; vm_compute; reflexivity).
  split; [exact H|].
  destruct (scrollTo_within_page_frame getPage sampleInsertRow scenarioReady H)
    as (s' & Hrun & _ & _ & _ & _ & Hf & _ & _ & Hh).
  exists s'. split; [exact Hrun|]. split; [exact Hf|].
  rewrite Hh. vm_compute. reflexivity.
Defined.



(** ** The scroll synchronizer *)

(** A finite number in lowest terms that is numerically 30 is 30. *)
Lemma fin_eq_const (q : Q) (z : Z) :
  (Qred q ?= inject_Z z)%Q = Eq -> Fin (Qred q) = ofZ z.
Proof.
  intros H. apply Qeq_alt in H. unfold ofZ. f_equal.
  rewrite <- (Qred_idem q). rewrite (Qred_complete _ _ H).
  apply Qcanon.Qred_identity. simpl. apply Z.gcd_1_r.
Qed.

(** The product the tracker height is computed from is a number whenever
    the proportion is one and is below 1. *)
Lemma proportion_times_visible (total visible : number) :
  isNaN (visible / total) = false ->
  (visible / total >=? 1) = false ->
  isNaN (visible / total * visible) = false.
Proof.
  unfold geb.
  destruct visible as [v| | |], total as [t| | |];
    cbn [div mul isNaN leb zero ofZ]; try discriminate; try reflexivity.
  - destruct (sgn t) eqn:St; try reflexivity.
    destruct (sgn v) eqn:Sv; cbn [isNaN leb mul]; try discriminate.
    intros _ _. now rewrite Sv.
  - destruct (sgn t); cbn [isNaN leb mul]; try discriminate; reflexivity.
  - destruct (sgn t); cbn [isNaN leb mul]; try discriminate; reflexivity.
Qed.

(** With a tracker height that is a number, the two tests of the code
    compute the maximum. *)
Lemma clamp_is_max (th : number) :
  match th with Fin q => q = Qred q | _ => True end ->
  isNaN th = false ->
  (if th <? MIN_TRACKER_HEIGHT then MIN_TRACKER_HEIGHT else th)
  = maxNumber MIN_TRACKER_HEIGHT th.
Proof.
  unfold maxNumber, MIN_TRACKER_HEIGHT.
  destruct th as [q| | |]; cbn [isNaN orb ltb]; try discriminate; try reflexivity.
  intros Hq _. rewrite <- (Qcompare_antisym q 30%Q).
  destruct (q ?= 30)%Q eqn:E; cbn [CompOpp]; try reflexivity.
  rewrite Hq in E |- *. exact (fin_eq_const q 30 E).
Qed.

Lemma mul_canonical (a b : number) :
  match (a * b)%js with Fin q => q = Qred q | _ => True end.
Proof.
  destruct a as [x| | |], b as [y| | |]; cbn [mul]; try exact I;
    try (unfold scaleInf; match goal with |- context [sgn ?z] => destruct (sgn z) end;
         exact I).
  unfold fin. now rewrite Qred_idem.
Qed.

(** The arithmetic of [calculateTrackerHeight] against the words of the
    specification. *)
Lemma trackerHeightOf_spec (total visible : number) :
  isNaN (visible / total) = false ->
  trackerHeightOf total visible = specTrackerHeight total visible /\
  if visible / total >=? 1
  then trackerHeightOf total visible = 0
  else trackerHeightOf total visible
       = maxNumber MIN_TRACKER_HEIGHT (visible / total * visible) /\
       (trackerHeightOf total visible >=? MIN_TRACKER_HEIGHT) = true.
Proof.
  intros Hnan. unfold trackerHeightOf, specTrackerHeight. cbv zeta.
  destruct (visible / total >=? 1) eqn:G; [split; reflexivity|].
  pose proof (proportion_times_visible _ _ Hnan G) as Hth.
  pose proof (mul_canonical (visible / total) visible) as Hcan.
  rewrite (clamp_is_max _ Hcan Hth). split; [reflexivity|]. split; [reflexivity|].
  rewrite <- (clamp_is_max _ Hcan Hth).
  destruct (visible / total * visible <? MIN_TRACKER_HEIGHT) eqn:L.
  - now apply geb_refl.
  - now apply ltb_false_geb.
Qed.

(** *** Dragging the tracker to the end of its travel *)

(** A tracker is shown only for a list that is longer than the viewport;
    its height is then given by the second branch of the code. *)
Lemma visible_tracker (t v : Q) :
  (0 <= t)%Q -> (0 <= v)%Q ->
  (trackerHeightOf (Fin t) (Fin v) >? 0) = true ->
  (0 < t)%Q /\ (v < t)%Q /\
  trackerHeightOf (Fin t) (Fin v)
  = if fin (v / t) * Fin v <? MIN_TRACKER_HEIGHT then MIN_TRACKER_HEIGHT
    else fin (v / t) * Fin v.
Proof.
  intros Ht Hv. unfold trackerHeightOf, gtb, geb. cbv zeta. cbn [div].
  pose proof (sgn_spec t) as St. pose proof (sgn_spec v) as Sv.
  destruct (sgn t) eqn:Et.
  - destruct (sgn v) eqn:Ev; cbn; try discriminate. lra.
  - lra.
  - destruct (1 <=? fin (v / t)) eqn:G; [cbn; discriminate|].
    intros _. split; [exact St|]. split; [|reflexivity].
    unfold fin in G. apply leb_Fin_false in G. rewrite Qred_correct in G.
    destruct (Qlt_le_dec v t) as [L|L]; [exact L|]. exfalso.
    assert (1 <= v / t)%Q by (apply Qle_shift_div_l; lra). lra.
Qed.

(** The travel of the tracker is zero only for a viewport that is exactly
    [MIN_TRACKER_HEIGHT] high. *)
Lemma trackable_nonzero (t v : Q) :
  (0 < t)%Q -> (0 <= v)%Q -> (v < t)%Q -> ~ (v == 30)%Q ->
  exists x, Fin v - (if fin (v / t) * Fin v <? MIN_TRACKER_HEIGHT
                     then MIN_TRACKER_HEIGHT else fin (v / t) * Fin v) = Fin x
            /\ ~ (x == 0)%Q.
Proof.
  intros Ht Hv Hlt H30. unfold MIN_TRACKER_HEIGHT.
  change (fin (v / t) * Fin v) with (Fin (Qred (Qred (v / t) * v))).
  destruct (Fin (Qred (Qred (v / t) * v)) <? 30) eqn:L.
  - cbn [sub]. eexists. split; [reflexivity|].
    rewrite Qred_correct. intros E. apply H30. lra.
  - cbn [sub fin]. eexists. split; [reflexivity|].
    apply ltb_Fin_false in L.
    rewrite !Qred_correct in L |- *.
    assert (Hpos : (0 < v)%Q).
    { destruct (Qlt_le_dec 0 v) as [P|P]; [exact P|]. exfalso.
      assert (E : (v == 0)%Q) by lra. rewrite E in L.
      assert (Z0 : (0 / t * 0 == 0)%Q) by (field; lra). lra. }
    assert (Hw : (v / t * v < v)%Q).
    { assert (E : (v / t * v == (v * v) / t)%Q) by (field; lra).
      rewrite E. apply Qlt_shift_div_r; [exact Ht|]. nra. }
    rewrite (Qred_correct (v / t)). lra.
Qed.

(** With a visible tracker and a viewport height other than
    [MIN_TRACKER_HEIGHT], the end of the tracker's travel maps to the
    content offset [totalContentHeight - viewportHeight], and the page
    index of that offset is valid. *)
Lemma tracker_end_reaches_bottom (r v n o : Q) :
  (0 < r)%Q -> (0 <= v)%Q -> (0 <= n)%Q -> (0 < o)%Q -> ~ (v == 30)%Q ->
  let total := Fin r * Fin n in
  let th := trackerHeightOf total (Fin v) in
  let trackable := Fin v - th in
  let ef := (total - Fin v) / trackable in
  (th >? 0) = true ->
  ef * trackable = total - Fin v /\
  (floor ((total - Fin v) / (Fin o * Fin r)) >=? 0) = true /\
  (floor ((total - Fin v) / (Fin o * Fin r)) * Fin o <=? Fin n) = true.
Proof.
  intros Hr Hv Hn Ho H30 total.
  set (t := Qred (r * n)).
  assert (Htot : total = Fin t) by reflexivity.
  clearbody total. subst total. intros th trackable ef Hvis.
  assert (Et : (t == r * n)%Q) by apply Qred_correct.
  assert (Ht0 : (0 <= t)%Q) by (rewrite Et; nra).
  destruct (@visible_tracker t v Ht0 Hv Hvis) as (Ht & Hlt & Hth).
  destruct (@trackable_nonzero t v Ht Hv Hlt H30) as (x & Hx & Hx0).
  assert (Etr : trackable = Fin x) by (unfold trackable, th; now rewrite Hth).
  subst ef. rewrite Etr. cbn [sub].
  change (fin (t - v)) with (Fin (Qred (t - v))).
  split.
  { cbn [div].
    destruct (sgn x) eqn:Sx.
    - exfalso. pose proof (sgn_spec x) as S. rewrite Sx in S. contradiction.
    - unfold fin. cbn [mul]. unfold fin. f_equal. apply Qred_complete.
      rewrite !Qred_correct. field. exact Hx0.
    - unfold fin. cbn [mul]. unfold fin. f_equal. apply Qred_complete.
      rewrite !Qred_correct. field. exact Hx0. }
  assert (Hd : (0 < o * r)%Q) by nra.
  change (Fin o * Fin r) with (Fin (Qred (o * r))).
  cbn [div]. rewrite sgn_Qred, (@sgn_pos _ Hd). cbn [floor fin].
  set (k := Qfloor (Qred (Qred (t - v) / Qred (o * r)))).
  assert (Eq1 : (Qred (Qred (t - v) / Qred (o * r)) == (t - v) / (o * r))%Q)
    by (now rewrite !Qred_correct).
  assert (Hq : (0 < (t - v) / (o * r))%Q).
  { apply Qlt_shift_div_l; [exact Hd|]. lra. }
  assert (Hk1 : (inject_Z k <= (t - v) / (o * r))%Q).
  { rewrite <- Eq1. apply Qfloor_le. }
  assert (Hk0 : (0 <= k)%Z).
  { unfold k. change 0%Z with (Qfloor 0). apply Qfloor_resp_le.
    rewrite Eq1. lra. }
  split.
  - unfold geb, ofZ. apply leb_Fin. change 0%Q with (inject_Z 0).
    now rewrite <- Zle_Qle.
  - unfold ofZ. cbn [mul]. unfold fin. apply leb_Fin. rewrite Qred_correct.
    assert (Hk2 : (inject_Z k * o <= (t - v) / (o * r) * o)%Q) by nra.
    assert (E2 : ((t - v) / (o * r) * o == n - v / r)%Q).
    { rewrite Et. field. split; lra. }
    assert (Hvr : (0 <= v / r)%Q) by (apply Qle_shift_div_l; lra).
    lra.
Qed.

Section Synchronizer.

Variables T Row World : Type.
Variable requestPage : number -> number -> World -> Promise (Page T) * World.
Variable insertRow : T -> Row.
Variable rowClientHeight : Row -> number.

Local Abbreviation State := (Sys T Row World).

(** C6 (amended).  With [totalContentHeight = rowHeight * numTotalItems]
    of the current page and [viewportHeight] the height of the viewport,
    and provided the proportion [viewportHeight / totalContentHeight] is a
    number (it is not for [0 / 0]): the computed tracker height is 0 when
    the proportion is at least 1, and otherwise it is
    [max(MIN_TRACKER_HEIGHT, proportion * viewportHeight)], hence at least
    [MIN_TRACKER_HEIGHT], which is 30. *)
Theorem calculateTrackerHeight_bounds (s : State) (p : Page T) :
  currentPage (this s) = Some p ->
  let totalContentHeight := rowHeight (this s) * Page.numTotalItems p in
  let viewportHeight := clientHeight (host s) in
  isNaN (viewportHeight / totalContentHeight) = false ->
  exists h,
    calculateTrackerHeight s = Done h s /\
    h = specTrackerHeight totalContentHeight viewportHeight /\
    MIN_TRACKER_HEIGHT = 30 /\
    if viewportHeight / totalContentHeight >=? 1
    then h = 0
    else h = maxNumber MIN_TRACKER_HEIGHT
               (viewportHeight / totalContentHeight * viewportHeight) /\
         (h >=? MIN_TRACKER_HEIGHT) = true.
Proof.
  intros Hp total visible Hnan.
  exists (trackerHeightOf total visible).
  split.
  - unfold calculateTrackerHeight, bind, gets, getsHost, deref. now rewrite Hp.
  - destruct (trackerHeightOf_spec _ _ Hnan) as [H1 H2].
    split; [exact H1|]. split; [reflexivity|exact H2].
Qed.

Lemma initialize_unfold (dummy : T) (s : State) :
  initialize requestPage insertRow rowClientHeight dummy s =
  spawn (updatePages requestPage insertRow 0 0)
        (measured insertRow rowClientHeight dummy s).
Proof. reflexivity. Qed.

(** Dividing by zero never gives a finite number. *)
Lemma div_zero_not_finite (a : number) : isFinite (ceil (a / 0)) = false.
Proof.
  destruct a as [x| | |]; cbn [div]; try reflexivity.
  change (sgn 0) with Eq. cbv iota. now destruct (sgn x).
Qed.

(** C7 (amended).  Initialization does not check the measured row height.
    When it is zero, initialization of a new controller raises no error:
    it completes, unless the data source itself never returns.  The zero
    is used as a divisor at once, [numVisibleItems] becomes
    [ceil(viewportHeight / 0)], which is not a finite number, and paging
    begins with a request at position 0 for
    [numVisibleItems + overlapStride] items. *)
Theorem initialize_zero_rowHeight (viewportHeight : number) (w : World)
    (dummy : T) :
  rowClientHeight (insertRow dummy) = 0 ->
  let o := initialize requestPage insertRow rowClientHeight dummy
             (construct viewportHeight w) in
  (o = Done tt (finalState o) \/ o = Stopped Diverges (finalState o)) /\
  rowHeight (this (finalState o)) = 0 /\
  numVisibleItems (this (finalState o)) = ceil (viewportHeight / 0) /\
  isFinite (numVisibleItems (this (finalState o))) = false /\
  exists more,
    fetched (finalState o) = (0, ceil (viewportHeight / 0) + 10) :: more.
Proof.
  intros Hzero o. subst o. rewrite initialize_unfold.
  set (s1 := measured insertRow rowClientHeight dummy (construct viewportHeight w)).
  assert (Hrow : rowHeight (this s1) = 0) by (unfold s1; simpl; exact Hzero).
  assert (Hnv : numVisibleItems (this s1) = ceil (viewportHeight / 0))
    by (unfold s1; simpl; now rewrite Hzero).
  assert (Hex : pageExists (this s1) 0 = true) by reflexivity.
  destruct (updatePages_keeps requestPage insertRow s1 0 0)
    as (K1 & K2 & _).
  destruct (@updatePages_first_request _ _ _ requestPage insertRow s1 0 0 Hex)
    as (more & Hf).
  rewrite finalState_spawn.
  split.
  { unfold spawn.
    destruct (updatePages requestPage insertRow 0 0 s1) as [[] s'|[] s'];
      simpl; auto. }
  split; [now rewrite K1|]. split; [now rewrite K2|].
  split; [rewrite K2, Hnv; apply div_zero_not_finite|].
  exists more. rewrite Hf. unfold pageCount. rewrite Hnv. reflexivity.
Qed.

(** *** The two input paths *)

Lemma onTrackerMove_unfold (evt : PointerEvent) (s : State) :
  onTrackerMove requestPage insertRow evt s =
  spawn (scrollTo requestPage insertRow
           (extrapolateFactor (this s) * draggedMargin (this s) evt))
        (mkSys (this s) (set_marginTop (draggedMargin (this s) evt) (host s))
               (source s) (fetched s) (paints s)).
Proof. reflexivity. Qed.

Lemma onScrollWheel_unfold (evt : WheelEvent) (s : State) :
  onScrollWheel requestPage insertRow evt s =
  let m := wheeledMargin (this s) (host s) evt in
  spawn (scrollTo requestPage insertRow (extrapolateFactor (this s) * m))
        (mkSys (set_lastMargin m (this s)) (set_marginTop m (host s))
               (source s) (fetched s) (paints s)).
Proof. unfold onScrollWheel, wheeledMargin. now destruct (deltaMode evt). Qed.

(** A drag move shows its offset on the tracker and leaves [lastMargin]
    as it was. *)
Lemma onTrackerMove_offsets (evt : PointerEvent) (s : State) :
  let s' := finalState (onTrackerMove requestPage insertRow evt s) in
  marginTop (host s') = draggedMargin (this s) evt /\
  lastMargin (this s') = lastMargin (this s).
Proof.
  cbv zeta. rewrite onTrackerMove_unfold, finalState_spawn.
  match goal with
  | |- context [scrollTo requestPage insertRow ?y ?st] =>
      destruct (scrollTo_keeps requestPage insertRow st y)
        as (_ & _ & _ & K4 & _ & K6 & _)
  end.
  rewrite K4, K6. split; reflexivity.
Qed.

(** A wheel event starts from [lastMargin], whatever offset the tracker
    shows, and stores its result in both places. *)
Lemma onScrollWheel_offsets (evt : WheelEvent) (s : State) :
  let s' := finalState (onScrollWheel requestPage insertRow evt s) in
  marginTop (host s') = wheeledMargin (this s) (host s) evt /\
  lastMargin (this s') = wheeledMargin (this s) (host s) evt.
Proof.
  cbv zeta. rewrite onScrollWheel_unfold. cbv zeta. rewrite finalState_spawn.
  match goal with
  | |- context [scrollTo requestPage insertRow ?y ?st] =>
      destruct (scrollTo_keeps requestPage insertRow st y)
        as (_ & _ & _ & K4 & _ & K6 & _)
  end.
  rewrite K4, K6. split; reflexivity.
Qed.

(** The geometry [updatePages] computes is the one of [geometryFrom]. *)
Lemma afterCurrent_geometry (p : Page T) (scrollY : number) (s : State) :
  geometryFrom (this (afterCurrent insertRow p scrollY s))
               (host (afterCurrent insertRow p scrollY s))
               (Page.numTotalItems p).
Proof. split; reflexivity. Qed.

(** Outside the failing case of C5 the claim holds: with a visible
    tracker, a viewport height other than [MIN_TRACKER_HEIGHT] and the
    geometry computed from the cached total, a drag that puts the tracker
    at [trackableHeight] asks [scrollTo] for the content offset
    [totalContentHeight - viewportHeight], whose page index is valid. *)
Lemma drag_to_end_reaches_bottom (s : State) (evt : PointerEvent)
    (r v n o : Q) :
  rowHeight (this s) = Fin r -> clientHeight (host s) = Fin v ->
  numTotalItems (this s) = Fin n -> overlappingElements (this s) = Fin o ->
  (0 < r)%Q -> (0 <= v)%Q -> (0 <= n)%Q -> (0 < o)%Q ->
  geometryFrom (this s) (host s) (Fin n) ->
  (trackerHeightOf (Fin r * Fin n) (Fin v) >? 0) = true ->
  ~ (v == 30)%Q ->
  draggedMargin (this s) evt = trackableHeight (this s) ->
  let scrollY := extrapolateFactor (this s) * draggedMargin (this s) evt in
  scrollY = Fin r * Fin n - Fin v /\
  validPageIndex (this s) (pageNumberByScroll (this s) scrollY) = true.
Proof.
  intros Hr Hv Hn Ho Pr Pv Pn Po [Gt Ge] Hvis H30 Hend scrollY.
  destruct (@tracker_end_reaches_bottom r v n o Pr Pv Pn Po H30 Hvis)
    as (E & V1 & V2).
  assert (Es : scrollY = Fin r * Fin n - Fin v).
  { unfold scrollY. rewrite Hend, Ge, Gt, Hr, Hv. exact E. }
  split; [exact Es|].
  unfold validPageIndex, pageNumberByScroll. rewrite Es, Ho, Hr, Hn.
  now rewrite V1, V2.
Qed.

End Synchronizer.

(** ** The scroll synchronizer on concrete viewports *)

(** In the scenario the proportion is 480 / 12000 and the tracker is 30 px
    high. *)
Lemma calculateTrackerHeight_bounds_witness :
  isNaN (480 / (24 * 500)) = false /\
  calculateTrackerHeight scenarioReady = Done 30 scenarioReady.
Proof.
  split; [vm_compute; reflexivity|].
  pose (p := match currentPage (this scenarioReady) with
             | Some p => p
             | None => Page.mk 0 0 []
             end).
  assert (N : currentPage (this scenarioReady) = Some p)
    by (vm_compute; reflexivity).
  destruct (@calculateTrackerHeight_bounds _ _ _ scenarioReady p N)
    as (h & Hrun & Hspec & _).
  - vm_compute; reflexivity.
  - rewrite Hrun, Hspec. vm_compute. reflexivity.
Defined.

(** C6 as stated fails for a viewport of height 0 showing rows of height
    0: the proportion is [0 / 0], which is not at least 1, and the tracker
    height computed is [NaN], which is neither 0 nor at least
    [MIN_TRACKER_HEIGHT]. *)
Lemma calculateTrackerHeight_of_nothing :
  let s := hiddenReady in
  exists p,
    currentPage (this s) = Some p /\
    rowHeight (this s) * Page.numTotalItems p = 0 /\
    clientHeight (host s) = 0 /\
    (clientHeight (host s) / (rowHeight (this s) * Page.numTotalItems p) >=? 1)
    = false /\
    calculateTrackerHeight s = Done NaN s /\
    (NaN >=? MIN_TRACKER_HEIGHT) = false.
Proof.
  cbv zeta. eexists. split; [vm_compute; reflexivity|].
  repeat (match goal with |- _ /\ _ => split end); vm_compute; reflexivity.
Qed.

(** With the sample source and a visible viewport, rows of height 0 make
    initialization ask for infinitely many items. *)
Lemma initialize_zero_rowHeight_witness :
  zeroRowHeight (sampleInsertRow dummyEntry) = 0 /\
  exists more,
    fetched (finalState (initialize getPage sampleInsertRow zeroRowHeight
                           dummyEntry scenarioStart))
    = (0, PosInf) :: more.
Proof.
  split; [reflexivity|].
  destruct (@initialize_zero_rowHeight _ _ _ getPage sampleInsertRow
              zeroRowHeight 480 totalNumberItems dummyEntry eq_refl)
    as (_ & _ & _ & _ & more & Hf).
  exists more. exact Hf.
Defined.

(** C7 as stated fails: with rows of height 0 initialization raises no
    error.  In a viewport of height 0 it completes, having divided by the
    zero ([numVisibleItems] and [extrapolateFactor] are [NaN]) and fetched
    two pages; in a viewport of 480 px [numVisibleItems] is [Infinity] and
    the sample data source is asked for infinitely many items, which it
    never finishes collecting. *)
Lemma initialize_zero_rowHeight_unchecked :
  zeroRowHeight (sampleInsertRow dummyEntry) = 0 /\
  initialize getPage sampleInsertRow zeroRowHeight dummyEntry hiddenStart
  = Done tt hiddenReady /\
  rowHeight (this hiddenReady) = 0 /\
  numVisibleItems (this hiddenReady) = NaN /\
  extrapolateFactor (this hiddenReady) = NaN /\
  fetched hiddenReady = [(0, NaN); (10, NaN)] /\
  exists s',
    initialize getPage sampleInsertRow zeroRowHeight dummyEntry scenarioStart
    = Stopped Diverges s' /\
    rowHeight (this s') = 0 /\
    numVisibleItems (this s') = PosInf /\
    fetched s' = [(0, PosInf)].
Proof.
  repeat (match goal with |- _ /\ _ => split end);
    try (vm_compute; reflexivity).
  eexists. split; [vm_compute; reflexivity|].
  repeat (match goal with |- _ /\ _ => split end); vm_compute; reflexivity.
Qed.

(** C8 fails on the code.  In the scenario, a drag of 50 px leaves the
    tracker at offset 50 while [lastMargin], from which the wheel handler
    starts, still holds the offset 0 captured when the drag began; a wheel
    event worth 10 px of tracker travel then moves the tracker to offset
    10 and not to 60. *)
Theorem wheel_during_drag_starts_from_stale_offset :
  let afterMove :=
    finalState (dispatchAll getPage sampleInsertRow dragBy50 scenarioReady) in
  let afterWheel :=
    finalState (dispatch getPage sampleInsertRow wheelBy256 afterMove) in
  dragListeners (host afterMove) = true /\
  marginTop (host afterMove) = 50 /\
  lastMargin (this afterMove) = 0 /\
  256 / extrapolateFactor (this afterMove) = 10 /\
  marginTop (host afterWheel) = 10 /\
  lastMargin (this afterWheel) = 10 /\
  (marginTop (host afterWheel) ==? 50 + 10) = false.
Proof.
  cbv zeta.
  repeat (match goal with |- _ /\ _ => split end); vm_compute; reflexivity.
Qed.

(** C5 fails on the code for a viewport exactly [MIN_TRACKER_HEIGHT] high.
    The tracker is visible (30 px), its travel [trackableHeight] is 0 and
    [extrapolateFactor] is [11970 / 0 = Infinity].  Dragging the tracker to
    the end of its travel gives the content offset [Infinity * 0 = NaN]
    instead of [12000 - 30]; the page index computed from it is [NaN],
    which is not valid, and the resync stops with a [TypeError] after
    clearing the current page. *)
Theorem drag_to_end_at_minimum_viewport_height :
  let s := narrowReady in
  let afterDrag := finalState (dispatchAll getPage sampleInsertRow dragToEnd s) in
  clientHeight (host s) = MIN_TRACKER_HEIGHT /\
  styleHeight (host s) = Some 30 /\
  trackableHeight (this s) = 0 /\
  extrapolateFactor (this s) = PosInf /\
  rowHeight (this s) * numTotalItems (this s) - clientHeight (host s) = 11970 /\
  marginTop (host afterDrag) = trackableHeight (this s) /\
  extrapolateFactor (this s) * trackableHeight (this s) = NaN /\
  pageNumberByScroll (this s) NaN = NaN /\
  validPageIndex (this s) NaN = false /\
  (exists s', updatePages getPage sampleInsertRow NaN NaN s = Stopped TypeError s') /\
  currentPage (this afterDrag) = None.
Proof.
  cbv zeta.
  repeat (match goal with |- _ /\ _ => split end);
    try (vm_compute; reflexivity).
  eexists. vm_compute. reflexivity.
Qed.

(** The general statement about the end of the tracker's travel applies to
    the scenario: the tracker grabbed at [pageY = 0] and dragged by 1000 px
    stops at [trackableHeight = 450], which maps to the content offset
    [12000 - 480], on the valid page 48. *)
Example drag_to_end_in_scenario :
  let s := finalState (dispatch getPage sampleInsertRow
                         (PointerDown {| pageY := 0 |}) scenarioReady) in
  let evt := {| pageY := 1000 |} in
  draggedMargin (this s) evt = 450 /\
  extrapolateFactor (this s) * draggedMargin (this s) evt = 11520 /\
  pageNumberByScroll (this s) 11520 = 48 /\
  validPageIndex (this s) 48 = true.
Proof.
  cbv zeta.
  set (s := finalState (dispatch getPage sampleInsertRow
                          (PointerDown {| pageY := 0 |}) scenarioReady)).
  set (evt := {| pageY := 1000 |}).
  assert (Hm : draggedMargin (this s) evt = 450) by (vm_compute; reflexivity).
  assert (H1 : rowHeight (this s) = Fin 24) by (vm_compute; reflexivity).
  assert (H2 : clientHeight (host s) = Fin 480) by (vm_compute; reflexivity).
  assert (H3 : numTotalItems (this s) = Fin 500) by (vm_compute; reflexivity).
  assert (H4 : overlappingElements (this s) = Fin 10) by (vm_compute; reflexivity).
  assert (H5 : geometryFrom (this s) (host s) (Fin 500))
    by (split; vm_compute; reflexivity).
  assert (H6 : (trackerHeightOf (Fin 24 * Fin 500) (Fin 480) >? 0) = true)
    by (vm_compute; reflexivity).
  assert (H7 : ~ (480 == 30)%Q) by (vm_compute; discriminate).
  assert (H8 : draggedMargin (this s) evt = trackableHeight (this s))
    by (vm_compute; reflexivity).
  destruct (@drag_to_end_reaches_bottom _ _ _ s evt 24 480 500 10
              H1 H2 H3 H4 ltac:(reflexivity) ltac:(discriminate)
              ltac:(discriminate) ltac:(reflexivity) H5 H6 H7 H8) as [E V].
  split; [exact Hm|].
  split; [rewrite E; vm_compute; reflexivity|].
  split; [vm_compute; reflexivity|].
  rewrite E in V.
  replace (pageNumberByScroll (this s) (Fin 24 * Fin 500 - Fin 480)) with 48 in V
    by (vm_compute; reflexivity).
  exact V.
Qed.

(** ** More about the window *)

Section Window.

Variables T Row World : Type.
Variable requestPage : number -> number -> World -> Promise (Page T) * World.
Variable insertRow : T -> Row.
Variable rowClientHeight : Row -> number.

Local Abbreviation State := (Sys T Row World).

(** For a finite page index, a target one page back is not one page
    forward. *)
Lemma pred_eqb_not_succ (a b : number) :
  isFinite a = true -> (a - 1 ==? b) = true -> (a + 1 ==? b) = false.
Proof.
  destruct a as [x| | |], b as [y| | |]; cbn [add sub eqb isFinite fin];
    try discriminate; try reflexivity.
  intros _.
  destruct (Qred (x - 1) ?= y)%Q eqn:E; try discriminate. intros _.
  apply Qeq_alt in E. rewrite Qred_correct in E.
  destruct (Qred (x + 1) ?= y)%Q eqn:E'; try reflexivity.
  apply Qeq_alt in E'. rewrite Qred_correct in E'. exfalso. lra.
Qed.

(** Case 3 of [scrollTo], up to the request for the new previous page. *)
Lemma scrollTo_backward (s : State) (scrollY : number) (pv : Page T) :
  (pageNumberByPage (this s) ==? pageNumberByScroll (this s) scrollY) = false ->
  ((pageNumberByPage (this s) + 1 ==? pageNumberByScroll (this s) scrollY)
   && isSome (nextPage (this s))) = false ->
  (pageNumberByPage (this s) - 1 ==? pageNumberByScroll (this s) scrollY) = true ->
  previousPage (this s) = Some pv ->
  scrollTo requestPage insertRow scrollY s =
  match requestPageIfExists requestPage
          (pageNumberByScroll (this s) scrollY) (slidBackward pv s) with
  | Stopped why s1 => Stopped why s1
  | Done n s1 =>
      fillContent insertRow
        (withScrollTop
           (scrollY %% (overlappingElements (this s) * rowHeight (this s)))
           (withPrevious n s1))
  end.
Proof.
  unfold pageNumberByPage, pageNumberByScroll. intros H1 H2 H3 H4.
  unfold scrollTo, bind, gets. cbv zeta. rewrite H1, H2, H3, H4.
  cbn -[requestPageIfExists fillContent add sub mul div rem floor].
  change (mkSys _ (host s) (source s) (fetched s) (paints s))
    with (slidBackward pv s).
  destruct (requestPageIfExists requestPage _ (slidBackward pv s)) as [n s1|why s1];
    reflexivity.
Qed.

(** X1.  When the target page index is the current one minus one and the
    previous slot is resident, [scrollTo] moves the slots at once: next
    becomes the old current, current the old previous, [startPosition] its
    start.  The page it requests for the previous slot is the target page
    itself, the one that has just become current, and not the page before
    it; it is requested only when the target index is valid.  When the
    index is not valid, or the data source resolves the request, the call
    completes: the previous slot holds the resolved page (or is absent),
    and the viewport is scrolled and repainted with the rows of the new
    current page.  When the request is rejected or never settled, the call
    stops with the previous slot, the rows and the scroll position as they
    were. *)
Theorem scrollTo_slides_backward (s : State) (scrollY : number) (pv : Page T) :
  let c := this s in
  let target := pageNumberByScroll c scrollY in
  (pageNumberByPage c ==? target) = false ->
  ((pageNumberByPage c + 1 ==? target) && isSome (nextPage c)) = false ->
  (pageNumberByPage c - 1 ==? target) = true ->
  previousPage c = Some pv ->
  let run := scrollTo requestPage insertRow scrollY s in
  let st := finalState run in
  let answer :=
    fst (requestPage (target * overlappingElements c) (pageCount c target)
           (source s)) in
  let repainted :=
    paints st = S (paints s) /\
    content (host st) = map insertRow (Page.items pv) /\
    scrollTop (host st) = scrollY %% (overlappingElements c * rowHeight c) in
  nextPage (this st) = currentPage c /\
  currentPage (this st) = Some pv /\
  startPosition (this st) = Page.startPosition pv /\
  fetched st =
  fetched s ++
  (if validPageIndex c target
   then [(target * overlappingElements c, pageCount c target)]
   else []) /\
  match validPageIndex c target, answer with
  | false, _ => run = Done tt st /\ previousPage (this st) = None /\ repainted
  | true, Resolves p =>
      run = Done tt st /\ previousPage (this st) = Some p /\ repainted
  | true, _ =>
      (exists why, run = Stopped why st) /\
      previousPage (this st) = Some pv /\
      host st = host s /\ paints st = paints s
  end.
Proof.
  intros c target H1 H2 H3 H4. cbv zeta.
  rewrite (scrollTo_backward _ _ H1 H2 H3 H4). fold c target.
  rewrite <- pageExists_validPageIndex.
  assert (Hsame : pageExists (this (slidBackward pv s)) target
                  = pageExists c target) by reflexivity.
  destruct (pageExists c target) eqn:E.
  - rewrite (requestPageIfExists_present requestPage _ _ Hsame). cbv zeta.
    change (overlappingElements (this (slidBackward pv s)))
      with (overlappingElements c).
    change (pageCount (this (slidBackward pv s)) target)
      with (pageCount c target).
    change (source (slidBackward pv s)) with (source s).
    destruct (requestPage (target * overlappingElements c) (pageCount c target)
                (source s)) as [[p| | |] w]; simpl;
      repeat split; try reflexivity; try exact H4; eexists; reflexivity.
  - rewrite (requestPageIfExists_absent requestPage _ _ Hsame). simpl.
    rewrite app_nil_r.
    destruct (fst (requestPage (target * overlappingElements c)
                     (pageCount c target) (source s)));
      repeat split; reflexivity.
Qed.

(** X2.  A forward slide whose request for the new next page is never
    settled (or is rejected) has already moved the window, current being
    the old next page, but the viewport is not repainted and its scroll
    position is not set: the rows shown are still those painted before. *)
Theorem scrollTo_forward_unsettled_keeps_rows (s : State) (scrollY : number)
    (nx : Page T) (w : World) (r : Promise (Page T)) :
  let c := this s in
  let target := pageNumberByScroll c scrollY in
  (pageNumberByPage c ==? target) = false ->
  (pageNumberByPage c + 1 ==? target) = true ->
  nextPage c = Some nx ->
  validPageIndex c (target + 1) = true ->
  requestPage ((target + 1) * overlappingElements c)
              (pageCount c (target + 1)) (source s) = (r, w) ->
  r = Pending \/ r = Rejects ->
  exists why s',
    scrollTo requestPage insertRow scrollY s = Stopped why s' /\
    (why = NeverSettles \/ why = FetchRejected) /\
    currentPage (this s') = Some nx /\
    previousPage (this s') = currentPage c /\
    nextPage (this s') = Some nx /\
    host s' = host s /\
    paints s' = paints s.
Proof.
  intros c target H1 H2 H3 V Hreq Hr.
  rewrite (scrollTo_forward requestPage insertRow _ _ H1 H2 H3). fold c target.
  rewrite <- pageExists_validPageIndex in V.
  assert (Hsame : pageExists (this (slidForward nx s)) (target + 1) = true)
    by exact V.
  rewrite (requestPageIfExists_present requestPage _ _ Hsame). cbv zeta.
  change (overlappingElements (this (slidForward nx s)))
    with (overlappingElements c).
  change (pageCount (this (slidForward nx s)) (target + 1))
    with (pageCount c (target + 1)).
  change (source (slidForward nx s)) with (source s).
  rewrite Hreq.
  destruct Hr as [-> | ->]; eexists; eexists; (split; [reflexivity|]);
    simpl; repeat split; auto.
Qed.

(** *** What a page request changes *)

(** A page request changes the cached total, the data source and the list
    of requests, and nothing else. *)
Lemma requestPageIfExists_only_total (s : State) (page : number) :
  let s' := finalState (requestPageIfExists requestPage page s) in
  (exists x, this s' = set_numTotalItems x (this s)) /\
  host s' = host s /\ paints s' = paints s.
Proof.
  cbv zeta. destruct (pageExists (this s) page) eqn:E.
  - rewrite (requestPageIfExists_present requestPage _ _ E). cbv zeta.
    destruct (requestPage _ _ (source s)) as [[p| | |] w]; simpl;
      (split; [|split; reflexivity]);
      [exists (Page.numTotalItems p); reflexivity
      |exists (numTotalItems (this s)); now destruct (this s)..].
  - rewrite (requestPageIfExists_absent requestPage _ _ E). simpl.
    split; [|split; reflexivity].
    exists (numTotalItems (this s)). now destruct (this s).
Qed.

Lemma requestPageIfExists_slots (s : State) (page : number) :
  let s' := finalState (requestPageIfExists requestPage page s) in
  currentPage (this s') = currentPage (this s) /\
  startPosition (this s') = startPosition (this s) /\
  previousPage (this s') = previousPage (this s) /\
  nextPage (this s') = nextPage (this s) /\
  content (host s') = content (host s).
Proof.
  cbv zeta. destruct (requestPageIfExists_only_total s page) as ((x & Hx) & Hh & _).
  rewrite Hx, Hh. repeat split; reflexivity.
Qed.

(** *** The number of requests *)

Lemma fetchesAtMost_same (s s' : State) (k : nat) :
  fetched s' = fetched s -> fetchesAtMost k s s'.
Proof.
  intros H. exists []. rewrite H, app_nil_r. split; [reflexivity|apply Nat.le_0_l].
Qed.

Lemma fetchesAtMost_trans (a b : nat) (s1 s2 s3 : State) :
  fetchesAtMost a s1 s2 -> fetchesAtMost b s2 s3 -> fetchesAtMost (a + b) s1 s3.
Proof.
  intros (m1 & E1 & L1) (m2 & E2 & L2). exists (m1 ++ m2).
  rewrite E2, E1, app_assoc, length_app. split; [reflexivity|].
  now apply Nat.add_le_mono.
Qed.

Lemma fetchesAtMost_more (a b : nat) (s s' : State) :
  (a <= b)%nat -> fetchesAtMost a s s' -> fetchesAtMost b s s'.
Proof.
  intros L (m & E & L'). exists m. split; [exact E|].
  now apply Nat.le_trans with a.
Qed.

Lemma requestPageIfExists_one_fetch (s : State) (page : number) :
  fetchesAtMost 1 s (finalState (requestPageIfExists requestPage page s)).
Proof.
  unfold fetchesAtMost. rewrite requestPageIfExists_fetched.
  eexists. split; [reflexivity|].
  destruct (pageExists (this s) page); simpl; auto.
Qed.

Lemma updatePages_three_fetches (s : State) (page scrollY : number) :
  fetchesAtMost 3 s (finalState (updatePages requestPage insertRow page scrollY s)).
Proof.
  rewrite updatePages_unfold.
  pose proof (requestPageIfExists_one_fetch s page) as F1.
  destruct (requestPageIfExists requestPage page s) as [[p|] s1|why s1];
    simpl in F1; [|now apply fetchesAtMost_more with 1%nat; auto
                  |now apply fetchesAtMost_more with 1%nat; auto].
  cbv zeta.
  pose proof (requestPageIfExists_one_fetch
                (afterCurrent insertRow p scrollY s1) (page + 1)) as F2.
  assert (F12 : fetchesAtMost 2 s
                  (finalState (requestPageIfExists requestPage (page + 1)
                                 (afterCurrent insertRow p scrollY s1)))).
  { apply (@fetchesAtMost_trans 1 1 s s1); [exact F1|].
    apply (@fetchesAtMost_trans 0 1 s1 (afterCurrent insertRow p scrollY s1));
      [now apply fetchesAtMost_same|exact F2]. }
  destruct (requestPageIfExists requestPage (page + 1) _) as [n s3|why s3];
    simpl in F12; [|now apply fetchesAtMost_more with 2%nat; auto].
  pose proof (requestPageIfExists_one_fetch (withNext n s3) (page - 1)) as F3.
  assert (F123 : fetchesAtMost 3 s
                   (finalState (requestPageIfExists requestPage (page - 1)
                                  (withNext n s3)))).
  { apply (@fetchesAtMost_trans 2 1 s s3); [exact F12|].
    apply (@fetchesAtMost_trans 0 1 s3 (withNext n s3));
      [now apply fetchesAtMost_same|exact F3]. }
  destruct (requestPageIfExists requestPage (page - 1) _) as [pv s4|why s4];
    simpl in F123; [|exact F123].
  destruct F123 as (m & E & L). exists m. split; [exact E|exact L].
Qed.

(** The four cases of [scrollTo]. *)
Lemma scrollTo_cases (s : State) (scrollY : number) :
  let c := this s in
  let target := pageNumberByScroll c scrollY in
  let top := scrollY %% (overlappingElements c * rowHeight c) in
  scrollTo requestPage insertRow scrollY s = Done tt (withScrollTop top s)
  \/
  (exists nx,
     nextPage c = Some nx /\
     scrollTo requestPage insertRow scrollY s =
     match requestPageIfExists requestPage (target + 1) (slidForward nx s) with
     | Stopped why s1 => Stopped why s1
     | Done n s1 => fillContent insertRow (withScrollTop top (withNext n s1))
     end)
  \/
  (exists pv,
     previousPage c = Some pv /\
     scrollTo requestPage insertRow scrollY s =
     match requestPageIfExists requestPage target (slidBackward pv s) with
     | Stopped why s1 => Stopped why s1
     | Done n s1 => fillContent insertRow (withScrollTop top (withPrevious n s1))
     end)
  \/
  scrollTo requestPage insertRow scrollY s =
  spawn (updatePages requestPage insertRow target scrollY) s.
Proof.
  cbv zeta.
  destruct (pageNumberByPage (this s) ==? pageNumberByScroll (this s) scrollY) eqn:C1.
  { left. now apply scrollTo_within. }
  right.
  destruct ((pageNumberByPage (this s) + 1 ==? pageNumberByScroll (this s) scrollY)
            && isSome (nextPage (this s))) eqn:C2.
  { left. apply andb_true_iff in C2. destruct C2 as [C2 N].
    destruct (nextPage (this s)) as [nx|] eqn:En; [|discriminate].
    exists nx. split; [reflexivity|].
    now apply scrollTo_forward. }
  right.
  destruct ((pageNumberByPage (this s) - 1 ==? pageNumberByScroll (this s) scrollY)
            && isSome (previousPage (this s))) eqn:C3.
  { left. apply andb_true_iff in C3. destruct C3 as [C3 N].
    destruct (previousPage (this s)) as [pv|] eqn:En; [|discriminate].
    exists pv. split; [reflexivity|].
    now apply scrollTo_backward. }
  right.
  unfold pageNumberByPage, pageNumberByScroll in *.
  unfold scrollTo, bind, gets. cbv zeta. now rewrite C1, C2, C3.
Qed.

Lemma fillContent_Done (s : State) :
  exists s', fillContent insertRow s = Done tt s' /\
    this s' = this s /\ fetched s' = fetched s /\ source s' = source s /\
    painted insertRow s'.
Proof.
  unfold fillContent, painted.
  destruct (currentPage (this s)) as [p|] eqn:E; eexists;
    (split; [reflexivity|]); simpl; rewrite E; repeat split; reflexivity.
Qed.

(** X3.  Handling one input event makes at most three requests to the
    data source, whatever the event and the state. *)
Theorem dispatch_three_fetches (e : Event) (s : State) :
  fetchesAtMost 3 s (finalState (dispatch requestPage insertRow e s)).
Proof.
  assert (Scroll : forall y s0,
             fetchesAtMost 3 s0 (finalState (scrollTo requestPage insertRow y s0))).
  { intros y s0.
    destruct (scrollTo_cases s0 y)
      as [E|[(nx & _ & E)|[(pv & _ & E)|E]]]; rewrite E; clear E.
    - now apply fetchesAtMost_same.
    - pose proof (requestPageIfExists_one_fetch (slidForward nx s0)
                    (pageNumberByScroll (this s0) y + 1)) as F.
      apply fetchesAtMost_more with 1%nat; [auto|].
      destruct (requestPageIfExists requestPage _ (slidForward nx s0))
        as [n s1|why s1]; simpl in F; [|exact F].
      destruct (fillContent_Done (withScrollTop
                  (y %% (overlappingElements (this s0) * rowHeight (this s0)))
                  (withNext n s1))) as (s' & -> & _ & Hf & _).
      destruct F as (m & E & L). exists m. simpl. rewrite Hf. now split.
    - pose proof (requestPageIfExists_one_fetch (slidBackward pv s0)
                    (pageNumberByScroll (this s0) y)) as F.
      apply fetchesAtMost_more with 1%nat; [auto|].
      destruct (requestPageIfExists requestPage _ (slidBackward pv s0))
        as [n s1|why s1]; simpl in F; [|exact F].
      destruct (fillContent_Done (withScrollTop
                  (y %% (overlappingElements (this s0) * rowHeight (this s0)))
                  (withPrevious n s1))) as (s' & -> & _ & Hf & _).
      destruct F as (m & E & L). exists m. simpl. rewrite Hf. now split.
    - rewrite finalState_spawn. apply updatePages_three_fetches. }
  destruct e as [evt|evt|evt|evt]; simpl.
  - now apply fetchesAtMost_same.
  - unfold bind, getsHost. destruct (dragListeners (host s));
      [|now apply fetchesAtMost_same].
    rewrite onTrackerMove_unfold, finalState_spawn.
    match goal with
    | |- context [scrollTo requestPage insertRow ?y ?st] =>
        destruct (Scroll y st) as (m & E & L)
    end.
    exists m. split; [exact E|exact L].
  - unfold bind, getsHost. destruct (dragListeners (host s));
      now apply fetchesAtMost_same.
  - rewrite onScrollWheel_unfold. cbv zeta. rewrite finalState_spawn.
    match goal with
    | |- context [scrollTo requestPage insertRow ?y ?st] =>
        destruct (Scroll y st) as (m & E & L)
    end.
    exists m. split; [exact E|exact L].
Qed.

(** *** Invariants of the window *)

Lemma windowSynced_ext (c c' : Controller T) :
  currentPage c' = currentPage c -> startPosition c' = startPosition c ->
  windowSynced c -> windowSynced c'.
Proof. unfold windowSynced. intros -> ->. exact (fun H => H). Qed.

Lemma requestPageIfExists_synced (s : State) (page : number) :
  windowSynced (this s) ->
  windowSynced (this (finalState (requestPageIfExists requestPage page s))).
Proof.
  destruct (requestPageIfExists_slots s page) as (Hc & Hs & _).
  now apply windowSynced_ext.
Qed.

Lemma updatePages_synced (s : State) (page scrollY : number) :
  windowSynced (this s) ->
  windowSynced (this (finalState (updatePages requestPage insertRow page scrollY s))).
Proof.
  intros H. rewrite updatePages_unfold.
  pose proof (requestPageIfExists_synced s page H) as H1.
  destruct (requestPageIfExists requestPage page s) as [[p|] s1|why s1];
    simpl in H1; [|exact I|exact H1].
  cbv zeta.
  assert (H2 : windowSynced (this (afterCurrent insertRow p scrollY s1)))
    by reflexivity.
  apply (requestPageIfExists_synced _ (page + 1)) in H2.
  destruct (requestPageIfExists requestPage (page + 1) _) as [n s3|why s3];
    simpl in H2; [|exact H2].
  assert (H3 : windowSynced (this (withNext n s3))) by exact H2.
  apply (requestPageIfExists_synced _ (page - 1)) in H3.
  destruct (requestPageIfExists requestPage (page - 1) _) as [pv s4|why s4];
    simpl in H3; exact H3.
Qed.

Lemma scrollTo_synced (s : State) (scrollY : number) :
  windowSynced (this s) ->
  windowSynced (this (finalState (scrollTo requestPage insertRow scrollY s))).
Proof.
  intros H.
  destruct (scrollTo_cases s scrollY)
    as [E|[(nx & _ & E)|[(pv & _ & E)|E]]]; rewrite E; clear E.
  - exact H.
  - assert (H1 : windowSynced (this (slidForward nx s))) by reflexivity.
    apply (requestPageIfExists_synced _ (pageNumberByScroll (this s) scrollY + 1))
      in H1.
    destruct (requestPageIfExists requestPage _ (slidForward nx s))
      as [n s1|why s1]; simpl in H1; [|exact H1].
    match goal with
    | |- context [fillContent insertRow ?st] =>
        destruct (fillContent_Done st) as (s' & -> & Ht & _)
    end.
    simpl. rewrite Ht. exact H1.
  - assert (H1 : windowSynced (this (slidBackward pv s))) by reflexivity.
    apply (requestPageIfExists_synced _ (pageNumberByScroll (this s) scrollY))
      in H1.
    destruct (requestPageIfExists requestPage _ (slidBackward pv s))
      as [n s1|why s1]; simpl in H1; [|exact H1].
    match goal with
    | |- context [fillContent insertRow ?st] =>
        destruct (fillContent_Done st) as (s' & -> & Ht & _)
    end.
    simpl. rewrite Ht. exact H1.
  - rewrite finalState_spawn. now apply updatePages_synced.
Qed.

Lemma dispatch_synced (e : Event) (s : State) :
  windowSynced (this s) ->
  windowSynced (this (finalState (dispatch requestPage insertRow e s))).
Proof.
  intros H. destruct e as [evt|evt|evt|evt]; simpl.
  - exact H.
  - unfold bind, getsHost. destruct (dragListeners (host s)); [|exact H].
    rewrite onTrackerMove_unfold, finalState_spawn. now apply scrollTo_synced.
  - unfold bind, getsHost. destruct (dragListeners (host s)); exact H.
  - rewrite onScrollWheel_unfold. cbv zeta. rewrite finalState_spawn.
    now apply scrollTo_synced.
Qed.

Lemma dispatchAll_synced (es : list Event) (s : State) :
  windowSynced (this s) ->
  windowSynced (this (finalState (dispatchAll requestPage insertRow es s))).
Proof.
  revert s. induction es as [|e es IH]; intros s H; [exact H|].
  simpl dispatchAll. unfold bind.
  pose proof (dispatch_synced e s H) as H1.
  destruct (dispatch requestPage insertRow e s) as [[] s1|why s1];
    simpl in H1; [now apply IH|exact H1].
Qed.

(** X4.  From the construction of the controller on, through
    initialization and any sequence of input events, whatever the data
    source answers: whenever a current page is held, the field
    [startPosition], from which [scrollTo] computes the page index of the
    window, is the [startPosition] of that page. *)
Theorem startPosition_follows_current_page (viewportHeight : number)
    (w : World) (dummy : T) (events : list Event) :
  let ready := finalState (initialize requestPage insertRow rowClientHeight dummy
                             (construct viewportHeight w)) in
  windowSynced (this ready) /\
  windowSynced (this (finalState (dispatchAll requestPage insertRow events ready))).
Proof.
  cbv zeta.
  assert (H : windowSynced
                (this (finalState (initialize requestPage insertRow
                                     rowClientHeight dummy
                                     (construct viewportHeight w))))).
  { rewrite initialize_unfold, finalState_spawn.
    apply updatePages_synced. exact I. }
  split; [exact H|now apply dispatchAll_synced].
Qed.

(** The resync leaves the rows of the current page in the viewport, at
    whatever point it stops. *)
Lemma updatePages_painted (s : State) (page scrollY : number) :
  painted insertRow s ->
  painted insertRow
    (finalState (updatePages requestPage insertRow page scrollY s)).
Proof.
  assert (Keep : forall s0 pg, painted insertRow s0 ->
            painted insertRow (finalState (requestPageIfExists requestPage pg s0))).
  { intros s0 pg. unfold painted.
    destruct (requestPageIfExists_slots s0 pg) as (Hc & _ & _ & _ & Hh).
    now rewrite Hc, Hh. }
  intros H. rewrite updatePages_unfold.
  pose proof (Keep s page H) as H1.
  destruct (requestPageIfExists requestPage page s) as [[p|] s1|why s1];
    simpl in H1; [|exact I|exact H1].
  cbv zeta.
  assert (H2 : painted insertRow (afterCurrent insertRow p scrollY s1))
    by reflexivity.
  apply (Keep _ (page + 1)) in H2.
  destruct (requestPageIfExists requestPage (page + 1) _) as [n s3|why s3];
    simpl in H2; [|exact H2].
  assert (H3 : painted insertRow (withNext n s3)) by exact H2.
  apply (Keep _ (page - 1)) in H3.
  destruct (requestPageIfExists requestPage (page - 1) _) as [pv s4|why s4];
    simpl in H3; exact H3.
Qed.

(** X5.  If the viewport shows the rows of the current page before a call
    of [scrollTo], it does so again when the call completes, in the order
    of the page's items: a slide repaints, a jump repaints, a scroll
    within the page changes neither the page nor the rows. *)
Theorem scrollTo_shows_current_page (s s' : State) (scrollY : number) :
  painted insertRow s ->
  scrollTo requestPage insertRow scrollY s = Done tt s' ->
  painted insertRow s'.
Proof.
  intros H.
  destruct (scrollTo_cases s scrollY)
    as [E|[(nx & _ & E)|[(pv & _ & E)|E]]]; rewrite E; clear E.
  - intros [= <-]. exact H.
  - destruct (requestPageIfExists requestPage _ (slidForward nx s))
      as [n s1|why s1]; [|discriminate].
    match goal with
    | |- context [fillContent insertRow ?st] =>
        destruct (fillContent_Done st) as (s2 & -> & _ & _ & _ & P)
    end.
    intros [= <-]. exact P.
  - destruct (requestPageIfExists requestPage _ (slidBackward pv s))
      as [n s1|why s1]; [|discriminate].
    match goal with
    | |- context [fillContent insertRow ?st] =>
        destruct (fillContent_Done st) as (s2 & -> & _ & _ & _ & P)
    end.
    intros [= <-]. exact P.
  - intros E.
    assert (Hs : s' = finalState (spawn (updatePages requestPage insertRow
                    (pageNumberByScroll (this s) scrollY) scrollY) s))
      by (now rewrite E).
    rewrite Hs, finalState_spawn. now apply updatePages_painted.
Qed.

(** *** Forward and back *)

Lemma scrollTo_forward_done (s s1 : State) (scrollY : number) (nx : Page T) :
  (pageNumberByPage (this s) ==? pageNumberByScroll (this s) scrollY) = false ->
  (pageNumberByPage (this s) + 1 ==? pageNumberByScroll (this s) scrollY) = true ->
  nextPage (this s) = Some nx ->
  scrollTo requestPage insertRow scrollY s = Done tt s1 ->
  previousPage (this s1) = currentPage (this s) /\
  currentPage (this s1) = Some nx /\
  startPosition (this s1) = Page.startPosition nx /\
  fetchesAtMost 1 s s1.
Proof.
  intros H1 H2 H3. rewrite (scrollTo_forward requestPage insertRow _ _ H1 H2 H3).
  pose proof (requestPageIfExists_slots (slidForward nx s)
                (pageNumberByScroll (this s) scrollY + 1)) as (Hc & Hs & Hp & _).
  pose proof (requestPageIfExists_one_fetch (slidForward nx s)
                (pageNumberByScroll (this s) scrollY + 1)) as F.
  destruct (requestPageIfExists requestPage _ (slidForward nx s))
    as [n s2|why s2]; [|discriminate].
  simpl in Hc, Hs, Hp, F.
  match goal with
  | |- context [fillContent insertRow ?st] =>
      destruct (fillContent_Done st) as (s3 & -> & Ht & Hf & _)
  end.
  intros [= <-]. rewrite Ht. simpl. rewrite Hc, Hs, Hp.
  repeat split; try reflexivity.
  destruct F as (m & E & L). exists m. rewrite Hf. now split.
Qed.

(** X6.  A slide forward followed by a slide backward brings back the
    page that was current before, taken from the previous slot and not
    fetched as current again; it is shown in the viewport, the page left
    behind stays resident as next, and the two calls together make at most
    two requests. *)
Theorem scrollTo_forward_then_backward (s s1 s2 : State)
    (forth back : number) (p0 nx : Page T) :
  currentPage (this s) = Some p0 ->
  nextPage (this s) = Some nx ->
  (pageNumberByPage (this s) ==? pageNumberByScroll (this s) forth) = false ->
  (pageNumberByPage (this s) + 1 ==? pageNumberByScroll (this s) forth) = true ->
  scrollTo requestPage insertRow forth s = Done tt s1 ->
  (pageNumberByPage (this s1) ==? pageNumberByScroll (this s1) back) = false ->
  (pageNumberByPage (this s1) + 1 ==? pageNumberByScroll (this s1) back) = false ->
  (pageNumberByPage (this s1) - 1 ==? pageNumberByScroll (this s1) back) = true ->
  scrollTo requestPage insertRow back s1 = Done tt s2 ->
  currentPage (this s2) = Some p0 /\
  startPosition (this s2) = Page.startPosition p0 /\
  nextPage (this s2) = Some nx /\
  content (host s2) = map insertRow (Page.items p0) /\
  fetchesAtMost 2 s s2.
Proof.
  intros Hc Hn F1 F2 Run1 B1 B2 B3.
  destruct (@scrollTo_forward_done s s1 forth nx F1 F2 Hn Run1)
    as (Hp1 & Hc1 & _ & Fa).
  rewrite Hc in Hp1.
  assert (B2' : ((pageNumberByPage (this s1) + 1
                  ==? pageNumberByScroll (this s1) back)
                 && isSome (nextPage (this s1))) = false) by (now rewrite B2).
  rewrite (@scrollTo_backward s1 back p0 B1 B2' B3 Hp1).
  pose proof (requestPageIfExists_slots (slidBackward p0 s1)
                (pageNumberByScroll (this s1) back)) as (Gc & Gs & _ & Gn & _).
  pose proof (requestPageIfExists_one_fetch (slidBackward p0 s1)
                (pageNumberByScroll (this s1) back)) as F.
  destruct (requestPageIfExists requestPage _ (slidBackward p0 s1))
    as [n s3|why s3]; [|discriminate].
  simpl in Gc, Gs, Gn, F. rewrite Hc1 in Gn.
  unfold fillContent. simpl. rewrite Gc.
  intros [= <-]. simpl. rewrite Gc, Gs, Gn.
  repeat split; try reflexivity.
  apply (@fetchesAtMost_trans 1 1 s s1); [exact Fa|].
  destruct F as (m & E & L). exists m. now split.
Qed.

(** *** A completed resync *)

Lemma requestPageIfExists_geometry (s : State) (page : number) (total : number) :
  let s' := finalState (requestPageIfExists requestPage page s) in
  geometryFrom (this s) (host s) total -> geometryFrom (this s') (host s') total.
Proof.
  cbv zeta. destruct (requestPageIfExists_only_total s page) as ((x & Hx) & Hh & _).
  unfold geometryFrom. rewrite Hx, Hh. exact (fun H => H).
Qed.

(** X15.  When a resync completes, its target page index was valid and
    the controller holds a current page; [startPosition] is the start of
    that page, the viewport shows its rows, and the tracker geometry
    ([trackableHeight], [extrapolateFactor], the height set on the tracker
    element) is the one computed from the total reported with that page,
    whatever totals the later requests for the next and previous pages
    report. *)
Theorem updatePages_completed (s s' : State) (page scrollY : number) :
  updatePages requestPage insertRow page scrollY s = Done tt s' ->
  validPageIndex (this s) page = true /\
  exists p,
    currentPage (this s') = Some p /\
    startPosition (this s') = Page.startPosition p /\
    content (host s') = map insertRow (Page.items p) /\
    geometryFrom (this s') (host s') (Page.numTotalItems p) /\
    styleHeight (host s')
    = Some (trackerHeightOf (rowHeight (this s) * Page.numTotalItems p)
                            (clientHeight (host s))) /\
    scrollTop (host s')
    = scrollY %% (overlappingElements (this s) * rowHeight (this s)).
Proof.
  rewrite updatePages_unfold, <- pageExists_validPageIndex.
  pose proof (requestPageIfExists_only_total s page) as ((x & Hx) & Hh & _).
  destruct (pageExists (this s) page) eqn:E.
  2:{ rewrite (requestPageIfExists_absent requestPage _ _ E). discriminate. }
  destruct (requestPageIfExists requestPage page s) as [[p|] s1|why s1];
    try discriminate.
  simpl in Hx, Hh. cbv zeta.
  set (s2 := afterCurrent insertRow p scrollY s1).
  pose proof (requestPageIfExists_only_total s2 (page + 1)) as ((x2 & Hx2) & Hh2 & _).
  pose proof (@requestPageIfExists_geometry s2 (page + 1) (Page.numTotalItems p)
                (@afterCurrent_geometry _ _ _ insertRow p scrollY s1)) as G2.
  destruct (requestPageIfExists requestPage (page + 1) s2) as [n s3|why s3];
    try discriminate.
  simpl in Hx2, Hh2, G2.
  pose proof (requestPageIfExists_only_total (withNext n s3) (page - 1))
    as ((x3 & Hx3) & Hh3 & _).
  assert (G3' : geometryFrom (this (withNext n s3)) (host (withNext n s3))
                  (Page.numTotalItems p)) by exact G2.
  apply (@requestPageIfExists_geometry (withNext n s3) (page - 1) _) in G3'.
  destruct (requestPageIfExists requestPage (page - 1) (withNext n s3))
    as [pv s4|why s4]; try discriminate.
  simpl in Hx3, Hh3, G3'.
  intros [= <-]. split; [reflexivity|]. exists p.
  unfold withPrevious. simpl. rewrite Hx3, Hh3. simpl. rewrite Hx2, Hh2.
  unfold s2. simpl. rewrite Hx, Hh. simpl.
  repeat (match goal with |- _ /\ _ => split end); try reflexivity.
  destruct G3' as [A B]. rewrite Hx3, Hh3 in A, B. simpl in A, B.
  rewrite Hx2, Hh2 in A, B. unfold s2 in A, B. simpl in A, B.
  rewrite Hx, Hh in A, B. simpl in A, B.
  split; simpl; assumption.
Qed.

End Window.

(** ** More about the input handlers and initialization *)

(** Without [NaN], [a <= b] fails only when [b <= a]. *)
Lemma leb_false_leb (a b : number) :
  isNaN a = false -> isNaN b = false -> (a <=? b) = false -> (b <=? a) = true.
Proof.
  destruct a as [x| | |], b as [y| | |]; simpl; try discriminate; try reflexivity.
  intros _ _. rewrite <- (Qcompare_antisym x y).
  destruct (x ?= y)%Q; simpl; now try discriminate.
Qed.

Lemma leb_not_NaN (a b : number) :
  (a <=? b) = true -> isNaN a = false /\ isNaN b = false.
Proof. destruct a, b; simpl; try discriminate; now split. Qed.

(** The two tests shared by the drag and the wheel handler keep a raw
    offset that is a number within the travel of the tracker. *)
Lemma clamped_within_travel (raw trackable : number) :
  isNaN raw = false -> (0 <=? trackable) = true ->
  let m := if raw <? 0 then 0 else raw in
  let m' := if m >=? trackable then trackable else m in
  (0 <=? m') = true /\ (m' <=? trackable) = true.
Proof.
  intros Hraw Htr. cbv zeta.
  destruct (@leb_not_NaN 0 trackable Htr) as [_ Ntr].
  assert (Hm : (0 <=? (if raw <? 0 then 0 else raw)) = true).
  { destruct (raw <? 0) eqn:L; [reflexivity|].
    exact (@ltb_false_geb raw 0 Hraw eq_refl L). }
  destruct (@leb_not_NaN 0 _ Hm) as [_ Nm].
  set (m := if raw <? 0 then 0 else raw) in *.
  unfold geb. destruct (trackable <=? m) eqn:G.
  - split; [exact Htr|]. exact (@geb_refl trackable Ntr).
  - split; [exact Hm|]. now apply leb_false_leb.
Qed.

Section Inputs.

Variables T Row World : Type.
Variable requestPage : number -> number -> World -> Promise (Page T) * World.
Variable insertRow : T -> Row.
Variable rowClientHeight : Row -> number.

Local Abbreviation State := (Sys T Row World).

(** X7.  When the travel of the tracker is not negative and the offset
    computed from the pointer is a number, a drag move leaves the tracker
    at an offset between 0 and [trackableHeight], however far the pointer
    has gone. *)
Theorem onTrackerMove_within_travel (evt : PointerEvent) (s : State) :
  isNaN (pageY evt - trackerY (this s) + lastMargin (this s)) = false ->
  (0 <=? trackableHeight (this s)) = true ->
  let s' := finalState (onTrackerMove requestPage insertRow evt s) in
  (0 <=? marginTop (host s')) = true /\
  (marginTop (host s') <=? trackableHeight (this s)) = true.
Proof.
  intros Hraw Htr. cbv zeta.
  destruct (onTrackerMove_offsets requestPage insertRow evt s) as [-> _].
  exact (@clamped_within_travel _ _ Hraw Htr).
Qed.

(** X8.  Under the same two conditions a wheel event leaves the tracker,
    and the offset the controller remembers, between 0 and
    [trackableHeight], whatever the size and the unit of the delta. *)
Theorem onScrollWheel_within_travel (evt : WheelEvent) (s : State) :
  let scrollY :=
    match deltaMode evt with
    | DOM_DELTA_LINE => deltaY evt * rowHeight (this s)
    | DOM_DELTA_PAGE => deltaY evt * clientHeight (host s)
    | DOM_DELTA_PIXEL => deltaY evt
    end in
  isNaN (scrollY / extrapolateFactor (this s) + lastMargin (this s)) = false ->
  (0 <=? trackableHeight (this s)) = true ->
  let s' := finalState (onScrollWheel requestPage insertRow evt s) in
  (0 <=? marginTop (host s')) = true /\
  (marginTop (host s') <=? trackableHeight (this s)) = true /\
  lastMargin (this s') = marginTop (host s').
Proof.
  intros scrollY Hraw Htr. cbv zeta.
  destruct (onScrollWheel_offsets requestPage insertRow evt s) as [-> ->].
  destruct (@clamped_within_travel _ _ Hraw Htr) as [A B].
  split; [exact A|]. split; [exact B|reflexivity].
Qed.

(** Each handler other than the drag move leaves [lastMargin] equal to the
    offset the tracker shows. *)
Lemma dispatch_offsetsAgree (e : Event) (s : State) :
  isPointerMove e = false -> offsetsAgree s ->
  offsetsAgree (finalState (dispatch requestPage insertRow e s)).
Proof.
  unfold offsetsAgree. intros He H.
  destruct e as [evt|evt|evt|evt]; simpl; try discriminate.
  - reflexivity.
  - unfold bind, getsHost. destruct (dragListeners (host s)); simpl;
      [reflexivity|exact H].
  - destruct (onScrollWheel_offsets requestPage insertRow evt s) as [-> ->].
    reflexivity.
Qed.

(** A handler other than the drag move leaves on the tracker a finite
    offset, when the one it found was finite and the one a wheel event
    assigns is. *)
Lemma dispatch_marginTop_finite (e : Event) (s : State) :
  isPointerMove e = false ->
  match e with
  | Wheel evt => isFinite (wheeledMargin (this s) (host s) evt) = true
  | _ => True
  end ->
  isFinite (marginTop (host s)) = true ->
  isFinite (marginTop (host (finalState (dispatch requestPage insertRow e s))))
  = true.
Proof.
  intros He Hw H.
  destruct e as [evt|evt|evt|evt]; simpl; try discriminate.
  - exact H.
  - unfold bind, getsHost. destruct (dragListeners (host s)); simpl; exact H.
  - destruct (onScrollWheel_offsets requestPage insertRow evt s) as [-> _].
    exact Hw.
Qed.

(** X9.  As long as no drag move is handled and every wheel event assigns
    the tracker a finite offset, the two records of the tracker offset
    agree: after any sequence of pointer-down, pointer-up and wheel
    events, started with a finite offset on the tracker that [lastMargin]
    equals, [lastMargin] is the offset the tracker shows, and that offset
    is finite. *)
Theorem offsets_agree_without_drag_moves (events : list Event) (s : State) :
  forallb (fun e => negb (isPointerMove e)) events = true ->
  wheelOffsetsFinite requestPage insertRow events s ->
  isFinite (marginTop (host s)) = true ->
  offsetsAgree s ->
  let s' := finalState (dispatchAll requestPage insertRow events s) in
  offsetsAgree s' /\ isFinite (marginTop (host s')) = true.
Proof.
  cbv zeta. revert s.
  induction events as [|e es IH]; intros s Hall Hfin Hm H; [now split|].
  simpl in Hall. apply andb_true_iff in Hall. destruct Hall as [He Hes].
  apply negb_true_iff in He.
  destruct Hfin as [Hw Hrest].
  simpl dispatchAll. unfold bind.
  pose proof (@dispatch_offsetsAgree e s He H) as H1.
  pose proof (@dispatch_marginTop_finite e s He Hw Hm) as H2.
  destruct (dispatch requestPage insertRow e s) as [[] s1|why s1];
    simpl in H1, H2, Hrest; [now apply IH|now split].
Qed.

(** A resync to a page that exists stores the page the data source
    resolves with and shows its rows; when the request is not settled,
    the current page and the rows stay as they were. *)
Lemma updatePages_first_page (s : State) (page scrollY : number) :
  pageExists (this s) page = true ->
  let s' := finalState (updatePages requestPage insertRow page scrollY s) in
  match fst (requestPage (page * overlappingElements (this s))
               (pageCount (this s) page) (source s)) with
  | Resolves p =>
      currentPage (this s') = Some p /\
      content (host s') = map insertRow (Page.items p)
  | _ =>
      currentPage (this s') = currentPage (this s) /\
      content (host s') = content (host s)
  end.
Proof.
  intros E. cbv zeta. rewrite updatePages_unfold.
  rewrite (requestPageIfExists_present requestPage s page E). cbv zeta.
  destruct (requestPage _ _ (source s)) as [[p| | |] w]; cbn [fst];
    try (split; reflexivity).
  set (s2 := afterCurrent insertRow p scrollY _).
  assert (H2 : currentPage (this s2) = Some p /\
               content (host s2) = map insertRow (Page.items p))
    by (split; reflexivity).
  destruct (requestPageIfExists_slots requestPage s2 (page + 1))
    as (Hc & _ & _ & _ & Hh).
  destruct (requestPageIfExists requestPage (page + 1) s2) as [n s3|why s3];
    cbn [finalState] in Hc, Hh |- *; [|now rewrite Hc, Hh].
  destruct (requestPageIfExists_slots requestPage (withNext n s3) (page - 1))
    as (Hc' & _ & _ & _ & Hh').
  destruct (requestPageIfExists requestPage (page - 1) (withNext n s3))
    as [pv s4|why s4]; cbn [finalState] in Hc', Hh' |- *.
  - change (currentPage (this s4) = Some p /\
            content (host s4) = map insertRow (Page.items p)).
    rewrite Hc', Hh'.
    change (currentPage (this s3) = Some p /\
            content (host s3) = map insertRow (Page.items p)).
    now rewrite Hc, Hh.
  - rewrite Hc', Hh'.
    change (currentPage (this s3) = Some p /\
            content (host s3) = map insertRow (Page.items p)).
    now rewrite Hc, Hh.
Qed.

(** X10.  Initialization of a new controller measures the probe row and
    takes it out of the content container again, which is then as empty as
    the constructor found it.  It always begins paging by requesting page
    0, [ceil(viewportHeight / rowHeight) + overlapStride] items from
    position 0, although the cached total is still 0.  When it is over, the
    viewport shows the rows of the page the data source resolved that
    request with, in the order of its items, and nothing else; when the
    request was not settled there is no current page and the container is
    empty: the probe row is gone either way. *)
Theorem initialize_first_request (viewportHeight : number) (w : World)
    (dummy : T) :
  let s0 := construct viewportHeight w in
  let count := ceil (viewportHeight / rowClientHeight (insertRow dummy)) + 10 in
  let s' := finalState (initialize requestPage insertRow rowClientHeight dummy
                          s0) in
  calculateEntryHeight insertRow rowClientHeight dummy s0
  = Done (rowClientHeight (insertRow dummy)) s0 /\
  (exists more, fetched s' = (0, count) :: more) /\
  rowHeight (this s') = rowClientHeight (insertRow dummy) /\
  numVisibleItems (this s')
  = ceil (viewportHeight / rowClientHeight (insertRow dummy)) /\
  match fst (requestPage 0 count w) with
  | Resolves p =>
      currentPage (this s') = Some p /\
      content (host s') = map insertRow (Page.items p)
  | _ => currentPage (this s') = None /\ content (host s') = []
  end.
Proof.
  cbv zeta. split; [reflexivity|].
  rewrite initialize_unfold, finalState_spawn.
  set (s1 := measured insertRow rowClientHeight dummy (construct viewportHeight w)).
  assert (Hex : pageExists (this s1) 0 = true) by reflexivity.
  destruct (updatePages_keeps requestPage insertRow s1 0 0) as (K1 & K2 & _).
  destruct (@updatePages_first_request _ _ _ requestPage insertRow s1 0 0 Hex)
    as (more & Hf).
  split; [exists more; exact Hf|].
  split; [exact K1|]. split; [exact K2|].
  exact (@updatePages_first_page s1 0 0 Hex).
Qed.

(** X11.  With a row height that is positive, the number of visible items
    computed by initialization is the least number of rows that fill the
    viewport: [numVisibleItems * rowHeight] is at least the viewport height
    and exceeds it by less than one row. *)
Theorem initialize_rows_fill_viewport (s : State) (dummy : T) (r v : Q) :
  rowClientHeight (insertRow dummy) = Fin r ->
  clientHeight (host s) = Fin v ->
  (0 < r)%Q ->
  let s' := finalState (initialize requestPage insertRow rowClientHeight dummy s) in
  exists k : Z,
    numVisibleItems (this s') = ofZ k /\
    rowHeight (this s') = Fin r /\
    (v <= inject_Z k * r)%Q /\ (inject_Z k * r < v + r)%Q.
Proof.
  intros Hr Hv Pr. cbv zeta. rewrite initialize_unfold, finalState_spawn.
  set (s1 := measured insertRow rowClientHeight dummy s).
  destruct (updatePages_keeps requestPage insertRow s1 0 0) as (K1 & K2 & _).
  rewrite K1, K2. unfold s1, measured. cbv zeta. simpl. rewrite Hr, Hv.
  cbn [div]. rewrite (@sgn_pos r Pr). cbn [ceil fin].
  exists (Qceiling (Qred (v / r))).
  split; [reflexivity|]. split; [reflexivity|].
  assert (E : Qceiling (Qred (v / r)) = Qceiling (v / r))
    by (now rewrite Qred_correct).
  rewrite E.
  pose proof (Qle_ceiling (v / r)) as L1.
  pose proof (Qceiling_lt (v / r)) as L2.
  unfold Z.sub in L2. rewrite inject_Z_plus in L2.
  change (inject_Z (- (1))) with (-1 # 1)%Q in L2.
  assert (Ev : (v == v / r * r)%Q) by (field; lra).
  set (q := (v / r)%Q) in *. set (k := inject_Z (Qceiling q)) in *.
  assert (P1 : (0 <= (k - q) * r)%Q) by (apply Qmult_le_0_compat; lra).
  assert (P2 : (0 < (q - k + 1) * r)%Q) by (apply Qmult_lt_0_compat; lra).
  split; lra.
Qed.

End Inputs.

(** ** More about the geometry of the tracker *)

Lemma ltb_Fin (x y : Q) : (Fin x <? Fin y) = true <-> (x < y)%Q.
Proof.
  cbn [ltb]. rewrite Qlt_alt. destruct (x ?= y)%Q; split; congruence.
Qed.

(** A viewport shorter than [MIN_TRACKER_HEIGHT] with overflowing content
    gets a tracker of [MIN_TRACKER_HEIGHT]. *)
Lemma short_viewport_tracker_height (t v : Q) :
  (0 <= v)%Q -> (v < 30)%Q -> (v < t)%Q ->
  trackerHeightOf (Fin t) (Fin v) = MIN_TRACKER_HEIGHT.
Proof.
  intros Pv Hv Hlt.
  assert (Pt : (0 < t)%Q) by lra.
  unfold trackerHeightOf, geb. cbv zeta. cbn [div]. rewrite (@sgn_pos t Pt).
  assert (G : (1 <=? fin (v / t)) = false).
  { unfold fin. apply leb_Fin_false. rewrite Qred_correct.
    apply Qlt_shift_div_r; lra. }
  rewrite G.
  change (fin (v / t) * Fin v) with (Fin (Qred (Qred (v / t) * v))).
  assert (L : (Fin (Qred (Qred (v / t) * v)) <? MIN_TRACKER_HEIGHT) = true).
  { unfold MIN_TRACKER_HEIGHT. apply (ltb_Fin _ 30).
    { rewrite Qred_correct, (Qred_correct (v / t)).
      assert (E : (v / t * v == (v * v) / t)%Q) by (field; lra).
      rewrite E.
      assert (Hw : ((v * v) / t <= v)%Q).
      { apply Qle_shift_div_r; [exact Pt|]. nra. }
      lra. } }
  now rewrite L.
Qed.

(** An offset below zero is below every offset that is not. *)
Lemma negative_below_nonnegative (a m : number) :
  (a <? 0) = true -> (0 <=? m) = true -> (a <=? m) = true.
Proof.
  destruct a as [x| | |], m as [y| | |]; simpl; try discriminate; try reflexivity.
  intros A M.
  destruct (x ?= 0)%Q eqn:E1; try discriminate. apply Qlt_alt in E1.
  destruct (0 ?= y)%Q eqn:E2; try discriminate;
    [apply Qeq_alt in E2|apply Qlt_alt in E2];
    (destruct (x ?= y)%Q eqn:E3; try reflexivity;
     apply Qgt_alt in E3; lra).
Qed.

(** X16.  In a viewport at least [MIN_TRACKER_HEIGHT] high a visible
    tracker fits: its height lies between [MIN_TRACKER_HEIGHT] and the
    viewport height, so the travel left for it is not negative. *)
Theorem tracker_fits_viewport (t v : Q) :
  (0 <= t)%Q -> (30 <= v)%Q ->
  (trackerHeightOf (Fin t) (Fin v) >? 0) = true ->
  (MIN_TRACKER_HEIGHT <=? trackerHeightOf (Fin t) (Fin v)) = true /\
  (trackerHeightOf (Fin t) (Fin v) <=? Fin v) = true /\
  (0 <=? Fin v - trackerHeightOf (Fin t) (Fin v)) = true.
Proof.
  intros Pt Pv Hvis.
  assert (Pv0 : (0 <= v)%Q) by lra.
  destruct (@visible_tracker t v Pt Pv0 Hvis) as (Ht & Hlt & Hth).
  rewrite Hth. unfold MIN_TRACKER_HEIGHT.
  change (fin (v / t) * Fin v) with (Fin (Qred (Qred (v / t) * v))).
  destruct (Fin (Qred (Qred (v / t) * v)) <? 30) eqn:L.
  - split; [now apply leb_Fin|]. split; [now apply leb_Fin|].
    cbn [sub fin]. apply leb_Fin. rewrite Qred_correct. lra.
  - apply ltb_Fin_false in L.
    assert (Hw : (Qred (Qred (v / t) * v) <= v)%Q).
    { rewrite Qred_correct, (Qred_correct (v / t)).
      assert (E : (v / t * v == (v * v) / t)%Q) by (field; lra).
      rewrite E. apply Qle_shift_div_r; [exact Ht|]. nra. }
    split; [now apply leb_Fin|]. split; [now apply leb_Fin|].
    cbn [sub fin]. apply leb_Fin. rewrite Qred_correct. lra.
Qed.

Section Geometry.

Variables T Row World : Type.
Variable requestPage : number -> number -> World -> Promise (Page T) * World.
Variable insertRow : T -> Row.

Local Abbreviation State := (Sys T Row World).

(** X12.  In a viewport lower than [MIN_TRACKER_HEIGHT] whose content
    overflows, the tracker is [MIN_TRACKER_HEIGHT] high, higher than the
    viewport; its travel [trackableHeight] is the viewport height less
    [MIN_TRACKER_HEIGHT], which is negative, and every drag move whose
    pointer offset is a number leaves the tracker at that negative
    [marginTop], wherever the pointer is. *)
Theorem short_viewport_tracker (s : State) (total : number) (t v : Q) :
  rowHeight (this s) * total = Fin t -> clientHeight (host s) = Fin v ->
  (0 <= v)%Q -> (v < 30)%Q -> (v < t)%Q ->
  geometryFrom (this s) (host s) total ->
  trackerHeightOf (rowHeight (this s) * total) (clientHeight (host s))
  = MIN_TRACKER_HEIGHT /\
  trackableHeight (this s) = clientHeight (host s) - MIN_TRACKER_HEIGHT /\
  (trackableHeight (this s) <? 0) = true /\
  forall evt : PointerEvent,
    isNaN (pageY evt - trackerY (this s) + lastMargin (this s)) = false ->
    let s' := finalState (onTrackerMove requestPage insertRow evt s) in
    marginTop (host s') = trackableHeight (this s) /\
    (marginTop (host s') <? 0) = true.
Proof.
  intros Ht Hv Pv Lv Lt [Gt _].
  assert (Hth : trackerHeightOf (rowHeight (this s) * total) (clientHeight (host s))
                = MIN_TRACKER_HEIGHT).
  { rewrite Ht, Hv. now apply short_viewport_tracker_height. }
  assert (Htr : trackableHeight (this s)
                = clientHeight (host s) - MIN_TRACKER_HEIGHT).
  { rewrite Gt, Hth. reflexivity. }
  assert (Hneg : (trackableHeight (this s) <? 0) = true).
  { rewrite Htr, Hv.
    change (Fin v - MIN_TRACKER_HEIGHT) with (Fin (Qred (v - 30))).
    apply (ltb_Fin _ 0). rewrite Qred_correct. lra. }
  split; [exact Hth|]. split; [exact Htr|]. split; [exact Hneg|].
  intros evt Hraw. cbv zeta.
  destruct (onTrackerMove_offsets requestPage insertRow evt s) as [-> _].
  assert (Hd : draggedMargin (this s) evt = trackableHeight (this s)).
  { unfold draggedMargin. cbv zeta.
    set (raw := pageY evt - trackerY (this s) + lastMargin (this s)) in *.
    assert (Hm : (0 <=? (if raw <? 0 then 0 else raw)) = true).
    { destruct (raw <? 0) eqn:L; [reflexivity|].
      exact (@ltb_false_geb raw 0 Hraw eq_refl L). }
    unfold geb. now rewrite (negative_below_nonnegative _ _ Hneg Hm). }
  rewrite Hd. split; [reflexivity|exact Hneg].
Qed.

(** A resync to a page that exists does not lose the current page. *)
Lemma updatePages_keeps_a_current_page (s : State) (page scrollY : number) :
  pageExists (this s) page = true ->
  isSome (currentPage (this s)) = true ->
  isSome (currentPage
            (this (finalState (updatePages requestPage insertRow page scrollY s))))
  = true.
Proof.
  intros E H. rewrite updatePages_unfold.
  pose proof (requestPageIfExists_slots requestPage s page) as (Hc & _).
  pose proof (requestPageIfExists_present requestPage _ _ E) as P.
  cbv zeta in P.
  destruct (requestPageIfExists requestPage page s) as [[p|] s1|why s1] eqn:R.
  - cbv zeta. set (s2 := afterCurrent insertRow p scrollY s1).
    assert (H2 : isSome (currentPage (this s2)) = true) by reflexivity.
    pose proof (requestPageIfExists_slots requestPage s2 (page + 1)) as (Hc2 & _).
    destruct (requestPageIfExists requestPage (page + 1) s2) as [n s3|why s3];
      simpl in Hc2; [|simpl; now rewrite Hc2].
    pose proof (requestPageIfExists_slots requestPage (withNext n s3) (page - 1))
      as (Hc3 & _).
    destruct (requestPageIfExists requestPage (page - 1) (withNext n s3))
      as [pv s4|why s4]; simpl in Hc3 |- *; rewrite Hc3; simpl; now rewrite Hc2.
  - exfalso.
    destruct (requestPage _ _ (source s)) as [[p| | |] w]; discriminate P.
  - simpl in Hc |- *. now rewrite Hc.
Qed.

(** A scroll to an offset on a page that exists does not lose the current
    page. *)
Lemma scrollTo_keeps_a_current_page (s : State) (scrollY : number) :
  pageExists (this s) (pageNumberByScroll (this s) scrollY) = true ->
  isSome (currentPage (this s)) = true ->
  isSome (currentPage
            (this (finalState (scrollTo requestPage insertRow scrollY s))))
  = true.
Proof.
  intros E H.
  destruct (scrollTo_cases requestPage insertRow s scrollY)
    as [R|[(nx & _ & R)|[(pv & _ & R)|R]]]; rewrite R; clear R.
  - exact H.
  - pose proof (requestPageIfExists_slots requestPage (slidForward nx s)
                  (pageNumberByScroll (this s) scrollY + 1)) as (Hc & _).
    destruct (requestPageIfExists requestPage _ (slidForward nx s))
      as [n s1|why s1]; simpl in Hc; [|simpl; now rewrite Hc].
    match goal with
    | |- context [fillContent insertRow ?st] =>
        destruct (fillContent_Done insertRow st) as (s' & -> & Ht & _)
    end.
    simpl. rewrite Ht. simpl. now rewrite Hc.
  - pose proof (requestPageIfExists_slots requestPage (slidBackward pv s)
                  (pageNumberByScroll (this s) scrollY)) as (Hc & _).
    destruct (requestPageIfExists requestPage _ (slidBackward pv s))
      as [n s1|why s1]; simpl in Hc; [|simpl; now rewrite Hc].
    match goal with
    | |- context [fillContent insertRow ?st] =>
        destruct (fillContent_Done insertRow st) as (s' & -> & Ht & _)
    end.
    simpl. rewrite Ht. simpl. now rewrite Hc.
  - rewrite finalState_spawn. now apply updatePages_keeps_a_current_page.
Qed.

(** X13.  A drag move whose target offset, [extrapolateFactor] times the
    clamped tracker offset as the handler computes it, lies on a page with
    a valid index does not lose the current page: a controller that holds
    a current page still holds one when the move has been handled, whether
    the scroll stays on the page, slides the window or resyncs it, and
    whatever the data source answers. *)
Theorem onTrackerMove_keeps_a_current_page (s : State) (evt : PointerEvent) :
  let scrollY := extrapolateFactor (this s) * draggedMargin (this s) evt in
  validPageIndex (this s) (pageNumberByScroll (this s) scrollY) = true ->
  isSome (currentPage (this s)) = true ->
  isSome (currentPage
            (this (finalState (onTrackerMove requestPage insertRow evt s))))
  = true.
Proof.
  intros scrollY Hvalid Hcur.
  rewrite onTrackerMove_unfold, finalState_spawn.
  apply scrollTo_keeps_a_current_page; [|exact Hcur].
  rewrite pageExists_validPageIndex. exact Hvalid.
Qed.

End Geometry.

(** ** More about the sample data source *)

Lemma Qred_inject_Z (z : Z) : Qred (inject_Z z) = inject_Z z.
Proof. apply Qcanon.Qred_identity. simpl. apply Z.gcd_1_r. Qed.

Lemma add_ofZ (x y : Z) : ofZ x + ofZ y = ofZ (x + y).
Proof.
  unfold ofZ. cbn [add]. unfold fin. apply f_equal.
  rewrite <- (Qred_inject_Z (x + y)). apply Qred_complete.
  now rewrite inject_Z_plus.
Qed.

Lemma geb_ofZ (x y : Z) : (ofZ x >=? ofZ y) = (y <=? x)%Z.
Proof.
  unfold geb, ofZ. cbn [leb]. unfold Qcompare, inject_Z. simpl.
  rewrite !Z.mul_1_r. unfold Z.leb. now destruct (y ?= x)%Z.
Qed.

(** The loop of [getPage] collects the items from [idx] on that lie before
    the end of the list. *)
Lemma getPageItems_run (n a : Z) (k : nat) (idx : Z) :
  getPageItems (ofZ n) (ofZ a) idx k =
  map (fun i => {| num := ofZ (a + idx + Z.of_nat i) |})
      (seq 0 (Z.to_nat (Z.min (Z.of_nat k) (n - a - idx)))).
Proof.
  revert idx. induction k as [|k IH]; intros idx.
  - replace (Z.to_nat (Z.min (Z.of_nat 0) (n - a - idx))) with 0%nat by lia.
    reflexivity.
  - cbn [getPageItems]. rewrite add_ofZ, geb_ofZ, IH.
    destruct (n <=? idx + a)%Z eqn:E.
    + apply Z.leb_le in E.
      replace (Z.to_nat (Z.min (Z.of_nat k) (n - a - (idx + 1)))) with 0%nat by lia.
      replace (Z.to_nat (Z.min (Z.of_nat (S k)) (n - a - idx))) with 0%nat by lia.
      reflexivity.
    + apply Z.leb_gt in E.
      replace (Z.to_nat (Z.min (Z.of_nat (S k)) (n - a - idx)))
        with (S (Z.to_nat (Z.min (Z.of_nat k) (n - a - (idx + 1))))) by lia.
      cbn [seq map]. f_equal.
      * f_equal. f_equal. lia.
      * rewrite <- seq_shift, map_map. apply map_ext. intros i.
        f_equal. f_equal. lia.
Qed.

(** X14.  For whole numbers with [startPosition < totalNumberItems], the
    sample data source resolves with a page that starts at
    [startPosition], reports the total, and holds the items numbered
    [startPosition], [startPosition + 1], ... in this order: as many as
    were asked for, but none at or past the end of the list (and none for a
    count that is not positive).  The total is left unchanged. *)
Theorem getPage_items (startPosition numberItems total : Z) :
  (startPosition < total)%Z ->
  getPage (ofZ startPosition) (ofZ numberItems) (ofZ total) =
  (Resolves
     (Page.mk (ofZ startPosition) (ofZ total)
        (map (fun i => {| num := ofZ (startPosition + Z.of_nat i) |})
             (seq 0 (Z.to_nat (Z.min numberItems (total - startPosition)))))),
   ofZ total).
Proof.
  intros H. unfold getPage. rewrite geb_ofZ.
  assert (E : (total <=? startPosition)%Z = false) by (apply Z.leb_gt; lia).
  rewrite E. cbn [loopCount ofZ]. rewrite Qceiling_Z.
  change (Fin (inject_Z total)) with (ofZ total).
  change (Fin (inject_Z startPosition)) with (ofZ startPosition).
  rewrite getPageItems_run.
  replace (Z.to_nat (Z.min (Z.of_nat (Z.to_nat numberItems))
                           (total - startPosition - 0)))
    with (Z.to_nat (Z.min numberItems (total - startPosition))) by lia.
  assert (M : forall l : list nat,
             map (fun i => {| num := ofZ (startPosition + 0 + Z.of_nat i) |}) l
             = map (fun i => {| num := ofZ (startPosition + Z.of_nat i) |}) l).
  { intros l. apply map_ext. intros i. now rewrite Z.add_0_r. }
  now rewrite M.
Qed.

(** ** The further properties on the scenario *)

(** With the window on page 1, the offset 100 is on page 0, one page back:
    page 0 comes back from the previous slot, and page 0 is what is
    requested again for the previous slot. *)
Lemma scrollTo_slides_backward_witness :
  (pageNumberByPage (this scenarioAtPage1) - 1
   ==? pageNumberByScroll (this scenarioAtPage1) 100) = true /\
  let st := finalState (scrollTo getPage sampleInsertRow 100 scenarioAtPage1) in
  scrollTo getPage sampleInsertRow 100 scenarioAtPage1 = Done tt st /\
  option_map Page.startPosition (currentPage (this st)) = Some 0 /\
  option_map Page.startPosition (previousPage (this st)) = Some 0 /\
  fetched st = fetched scenarioAtPage1 ++ [(0, 30)].
Proof.
  split; [vm_compute; reflexivity|].
  set (pv := held (previousPage (this scenarioAtPage1))).
  assert (P : previousPage (this scenarioAtPage1) = Some pv)
    by (vm_compute; reflexivity).
  assert (H1 : (pageNumberByPage (this scenarioAtPage1)
                ==? pageNumberByScroll (this scenarioAtPage1) 100) = false)
    by (vm_compute; reflexivity).
  assert (H2 : ((pageNumberByPage (this scenarioAtPage1) + 1
                 ==? pageNumberByScroll (this scenarioAtPage1) 100)
                && isSome (nextPage (this scenarioAtPage1))) = false)
    by (vm_compute; reflexivity).
  assert (H3 : (pageNumberByPage (this scenarioAtPage1) - 1
                ==? pageNumberByScroll (this scenarioAtPage1) 100) = true)
    by (vm_compute; reflexivity).
  pose proof (@scrollTo_slides_backward _ _ _ getPage sampleInsertRow
                scenarioAtPage1 100 pv H1 H2 H3 P) as (_ & Hc & _ & Hf & _).
  cbv zeta.
  split; [vm_compute; reflexivity|].
  split; [rewrite Hc; vm_compute; reflexivity|].
  split; [vm_compute; reflexivity|].
  rewrite Hf. vm_compute. reflexivity.
Defined.

(** With the window on page 48 of the 500 items, a slide to page 49 asks
    for page 50 at position 500, which the sample source never answers:
    the window has moved, the rows have not. *)
Lemma scrollTo_forward_unsettled_keeps_rows_witness :
  getPage 500 40 (source scenarioAtPage48) = (Pending, 500) /\
  exists why s',
    scrollTo getPage sampleInsertRow 11760 scenarioAtPage48
    = Stopped why s' /\
    option_map Page.startPosition (currentPage (this s')) = Some 490 /\
    host s' = host scenarioAtPage48.
Proof.
  split; [vm_compute; reflexivity|].
  set (nx := held (nextPage (this scenarioAtPage48))).
  assert (N : nextPage (this scenarioAtPage48) = Some nx)
    by (vm_compute; reflexivity).
  destruct (@scrollTo_forward_unsettled_keeps_rows _ _ _ getPage sampleInsertRow
              scenarioAtPage48 11760 nx 500 Pending)
    as (why & s' & Hrun & Hwhy & Hc & _ & _ & Hh & _).
  - vm_compute; reflexivity.
  - vm_compute; reflexivity.
  - exact N.
  - vm_compute; reflexivity.
  - vm_compute; reflexivity.
  - left; reflexivity.
  - exists why, s'. split; [exact Hrun|]. split; [|exact Hh].
    rewrite Hc. vm_compute. reflexivity.
Defined.

(** In the scenario the rows of page 0 are shown, and after the scroll to
    offset 240 those of page 1. *)
Lemma scrollTo_shows_current_page_witness :
  painted sampleInsertRow scenarioReady /\
  scrollTo getPage sampleInsertRow 240 scenarioReady = Done tt scenarioAtPage1 /\
  painted sampleInsertRow scenarioAtPage1.
Proof.
  assert (P : painted sampleInsertRow scenarioReady) by (vm_compute; reflexivity).
  assert (R : scrollTo getPage sampleInsertRow 240 scenarioReady
              = Done tt scenarioAtPage1) by (vm_compute; reflexivity).
  split; [exact P|]. split; [exact R|].
  exact (@scrollTo_shows_current_page _ _ _ getPage sampleInsertRow
           scenarioReady scenarioAtPage1 240 P R).
Defined.

(** In the scenario, a scroll to offset 240 and back to offset 100 shows
    page 0 again. *)
Lemma scrollTo_forward_then_backward_witness :
  exists s2,
    scrollTo getPage sampleInsertRow 100 scenarioAtPage1 = Done tt s2 /\
    currentPage (this s2) = currentPage (this scenarioReady) /\
    nextPage (this s2) = nextPage (this scenarioReady).
Proof.
  set (p0 := held (currentPage (this scenarioReady))).
  set (nx := held (nextPage (this scenarioReady))).
  set (s2 := finalState (scrollTo getPage sampleInsertRow 100 scenarioAtPage1)).
  assert (C : currentPage (this scenarioReady) = Some p0)
    by (vm_compute; reflexivity).
  assert (N : nextPage (this scenarioReady) = Some nx)
    by (vm_compute; reflexivity).
  assert (R1 : scrollTo getPage sampleInsertRow 240 scenarioReady
               = Done tt scenarioAtPage1) by (vm_compute; reflexivity).
  assert (R2 : scrollTo getPage sampleInsertRow 100 scenarioAtPage1
               = Done tt s2) by (vm_compute; reflexivity).
  destruct (@scrollTo_forward_then_backward _ _ _ getPage sampleInsertRow
              scenarioReady scenarioAtPage1 s2 240 100 p0 nx C N)
    as (Hc & _ & Hn & _); try exact R1; try exact R2;
    try (vm_compute; reflexivity).
  exists s2. split; [exact R2|]. split; [now rewrite Hc, C|now rewrite Hn, N].
Defined.

(** In the scenario, with the tracker grabbed, a pointer 1000 px further
    down leaves the tracker at the end of its travel, 450. *)
Lemma onTrackerMove_within_travel_witness :
  (0 <=? trackableHeight (this scenarioGrabbed)) = true /\
  marginTop (host (finalState (onTrackerMove getPage sampleInsertRow
                                 {| pageY := 1000 |} scenarioGrabbed)))
  = 450.
Proof.
  assert (H1 : isNaN (pageY {| pageY := 1000 |} - trackerY (this scenarioGrabbed)
                      + lastMargin (this scenarioGrabbed)) = false)
    by (vm_compute; reflexivity).
  assert (H2 : (0 <=? trackableHeight (this scenarioGrabbed)) = true)
    by (vm_compute; reflexivity).
  pose proof (@onTrackerMove_within_travel _ _ _ getPage sampleInsertRow
                {| pageY := 1000 |} scenarioGrabbed H1 H2) as [_ _].
  split; [exact H2|]. vm_compute. reflexivity.
Defined.

(** In the scenario a wheel event of 256 px leaves the tracker at 10. *)
Lemma onScrollWheel_within_travel_witness :
  (0 <=? trackableHeight (this scenarioReady)) = true /\
  marginTop (host (finalState (onScrollWheel getPage sampleInsertRow
                                 {| deltaMode := DOM_DELTA_PIXEL; deltaY := 256 |}
                                 scenarioReady)))
  = 10.
Proof.
  assert (H1 : isNaN (256 / extrapolateFactor (this scenarioReady)
                      + lastMargin (this scenarioReady)) = false)
    by (vm_compute; reflexivity).
  assert (H2 : (0 <=? trackableHeight (this scenarioReady)) = true)
    by (vm_compute; reflexivity).
  pose proof (@onScrollWheel_within_travel _ _ _ getPage sampleInsertRow
                {| deltaMode := DOM_DELTA_PIXEL; deltaY := 256 |}
                scenarioReady H1 H2) as [_ _].
  split; [exact H2|]. vm_compute. reflexivity.
Defined.

(** In the scenario, after a wheel event, a click on the tracker and
    another wheel event the two offsets are both 20. *)
Lemma offsets_agree_without_drag_moves_witness :
  offsetsAgree scenarioReady /\
  wheelOffsetsFinite getPage sampleInsertRow wheelClickWheel scenarioReady /\
  offsetsAgree (finalState (dispatchAll getPage sampleInsertRow wheelClickWheel
                              scenarioReady)) /\
  marginTop (host (finalState (dispatchAll getPage sampleInsertRow wheelClickWheel
                                 scenarioReady))) = 20.
Proof.
  assert (H1 : forallb (fun e => negb (isPointerMove e)) wheelClickWheel = true)
    by reflexivity.
  assert (H2 : offsetsAgree scenarioReady) by (vm_compute; reflexivity).
  assert (H3 : isFinite (marginTop (host scenarioReady)) = true)
    by (vm_compute; reflexivity).
  assert (H4 : wheelOffsetsFinite getPage sampleInsertRow wheelClickWheel
                 scenarioReady).
  { vm_compute. repeat (split; try reflexivity). }
  split; [exact H2|]. split; [exact H4|]. split.
  - exact (proj1 (@offsets_agree_without_drag_moves _ _ _ getPage sampleInsertRow
                    wheelClickWheel scenarioReady H1 H4 H3 H2)).
  - vm_compute. reflexivity.
Defined.

(** In the scenario 20 rows of 24 px fill the viewport of 480 px. *)
Lemma initialize_rows_fill_viewport_witness :
  sampleRowHeight (sampleInsertRow dummyEntry) = Fin 24 /\
  exists k : Z,
    numVisibleItems (this scenarioReady) = ofZ k /\
    (480 <= inject_Z k * 24)%Q /\ (inject_Z k * 24 < 480 + 24)%Q.
Proof.
  split; [reflexivity|].
  destruct (@initialize_rows_fill_viewport _ _ _ getPage sampleInsertRow
              sampleRowHeight scenarioStart dummyEntry 24 480
              eq_refl eq_refl ltac:(reflexivity))
    as (k & Hk & _ & L1 & L2).
  exists k. split; [exact Hk|]. split; [exact L1|exact L2].
Defined.

(** With the sample items in a viewport of 20 px the tracker is 30 px high
    and its travel is -10: a drag move to [pageY = 7] leaves the tracker
    at [marginTop = -10]. *)
Lemma short_viewport_tracker_witness :
  geometryFrom (this shortViewportReady) (host shortViewportReady) 500 /\
  trackableHeight (this shortViewportReady) = -10 /\
  marginTop (host (finalState (onTrackerMove getPage sampleInsertRow
                                 {| pageY := 7 |} shortViewportReady))) = -10.
Proof.
  assert (G : geometryFrom (this shortViewportReady) (host shortViewportReady)
                500) by (split; vm_compute; reflexivity).
  assert (H1 : rowHeight (this shortViewportReady) * 500 = Fin 12000)
    by (vm_compute; reflexivity).
  assert (H2 : clientHeight (host shortViewportReady) = Fin 20)
    by (vm_compute; reflexivity).
  assert (H3 : isNaN (pageY {| pageY := 7 |} - trackerY (this shortViewportReady)
                      + lastMargin (this shortViewportReady)) = false)
    by (vm_compute; reflexivity).
  assert (H4 : trackableHeight (this shortViewportReady) = -10)
    by (vm_compute; reflexivity).
  pose proof (@short_viewport_tracker _ _ _ getPage sampleInsertRow
                shortViewportReady 500 12000 20 H1 H2
                ltac:(discriminate) ltac:(reflexivity) ltac:(reflexivity) G)
    as (_ & _ & _ & Hdrag).
  split; [exact G|]. split; [exact H4|].
  exact (eq_trans (proj1 (Hdrag {| pageY := 7 |} H3)) H4).
Defined.

(** In the scenario, with the tracker grabbed, a pointer 200 px further
    down asks for the content offset 5120, on the valid page 21, and a
    current page is held afterwards. *)
Lemma onTrackerMove_keeps_a_current_page_witness :
  extrapolateFactor (this scenarioGrabbed)
  * draggedMargin (this scenarioGrabbed) {| pageY := 200 |} = 5120 /\
  validPageIndex (this scenarioGrabbed)
    (pageNumberByScroll (this scenarioGrabbed) 5120) = true /\
  isSome (currentPage
            (this (finalState (onTrackerMove getPage sampleInsertRow
                                 {| pageY := 200 |} scenarioGrabbed)))) = true.
Proof.
  assert (H1 : extrapolateFactor (this scenarioGrabbed)
               * draggedMargin (this scenarioGrabbed) {| pageY := 200 |} = 5120)
    by (vm_compute; reflexivity).
  assert (H2 : validPageIndex (this scenarioGrabbed)
                 (pageNumberByScroll (this scenarioGrabbed)
                    (extrapolateFactor (this scenarioGrabbed)
                     * draggedMargin (this scenarioGrabbed) {| pageY := 200 |}))
               = true) by (vm_compute; reflexivity).
  assert (H2' : validPageIndex (this scenarioGrabbed)
                  (pageNumberByScroll (this scenarioGrabbed) 5120) = true)
    by (vm_compute; reflexivity).
  assert (H3 : isSome (currentPage (this scenarioGrabbed)) = true)
    by (vm_compute; reflexivity).
  split; [exact H1|]. split; [exact H2'|].
  exact (@onTrackerMove_keeps_a_current_page _ _ _ getPage sampleInsertRow
           scenarioGrabbed {| pageY := 200 |} H2 H3).
Defined.

(** The last page of the 500 sample items: asked for 40 items from 490,
    the source returns the 10 items 490 to 499. *)
Lemma getPage_items_witness :
  (490 < 500)%Z /\
  exists p,
    getPage 490 40 500 = (Resolves p, 500) /\
    Page.startPosition p = 490 /\
    map num (Page.items p)
    = [490; 491; 492; 493; 494; 495; 496; 497; 498; 499].
Proof.
  split; [reflexivity|].
  eexists. split; [exact (@getPage_items 490 40 500 eq_refl)|].
  split; reflexivity.
Defined.

(** In the scenario a resync to page 5 completes with the window on
    position 50 and the geometry of 500 items. *)
Lemma updatePages_completed_witness :
  exists s' p,
    updatePages getPage sampleInsertRow 5 1200 scenarioReady = Done tt s' /\
    currentPage (this s') = Some p /\
    startPosition (this s') = 50 /\
    trackableHeight (this s') = 450.
Proof.
  set (s' := finalState (updatePages getPage sampleInsertRow 5 1200 scenarioReady)).
  assert (R : updatePages getPage sampleInsertRow 5 1200 scenarioReady = Done tt s')
    by (vm_compute; reflexivity).
  destruct (@updatePages_completed _ _ _ getPage sampleInsertRow
              scenarioReady s' 5 1200 R) as (_ & p & Hc & _).
  exists s', p. split; [exact R|]. split; [exact Hc|].
  split; vm_compute; reflexivity.
Defined.

(** For the scenario: 12000 px of content in 480 px. *)
Lemma tracker_fits_viewport_witness :
  (trackerHeightOf (Fin 12000) (Fin 480) >? 0) = true /\
  (trackerHeightOf (Fin 12000) (Fin 480) <=? Fin 480) = true.
Proof.
  assert (H : (trackerHeightOf (Fin 12000) (Fin 480) >? 0) = true)
    by (vm_compute; reflexivity).
  destruct (@tracker_fits_viewport 12000 480 ltac:(discriminate)
              ltac:(discriminate) H) as (_ & B & _).
  split; [exact H|exact B].
Defined.
